(** * Time tracking and invoicing application: role-scoped views,
      aggregates, time-log submission and seeding.

    The development embeds [main.py] (the request handlers) and
    [database.py] (the tables and [init_db]) as functions over an explicit
    entity store and proves the properties of the visibility and
    aggregation layer.

    Conventions of the embedding:
    - a table is the list of its rows in rowid order, which is the order
      in which [.all()] yields them;
    - integers are [Z]; the [Float] columns (hours, amount, budget) are
      exact rationals [Q], so that a sum is the left-to-right sum Python
      computes, without rounding;
    - a string is a [string] of bytes, compared bytewise as Python compares
      code points; the date field of the time-log form, which the parser
      reads character by character, is a list of code points;
    - a store holds a number for the hours of every time entry; the
      tables that a post of the hours "inf" or "nan" leaves behind are a
      store and one further row, and the pages are embedded on stores;
    - a handler takes the store and the authenticated user
      ([login_required] has already run) and returns the template context,
      or the exception it raises. *)

From Stdlib Require Import List ZArith QArith Bool String Ascii Lia.
From Stdlib Require Import DecimalString.
From Stdlib Require Import Permutation Sorted.
Import ListNotations.

Close Scope Q_scope.
Open Scope string_scope.
Open Scope list_scope.
Open Scope Z_scope.

(** ** Dates *)

Record date := mkDate { year : Z; month : Z; day : Z }.

(** Python compares dates as the triples (year, month, day). *)
Definition date_leb (a b : date) : bool :=
  (year a <? year b)
  || ((year a =? year b)
      && ((month a <? month b)
          || ((month a =? month b) && (day a <=? day b)))).

(** ** Tables of [database.py] *)

Record User := mkUser {
  u_id : Z;
  u_username : string;
  u_hashed_password : string;
  u_role : string;
  u_client_id : option Z
}.

Record Client := mkClient {
  c_id : Z;
  c_name : string;
  c_contact_email : string
}.

Record Project := mkProject {
  p_id : Z;
  p_name : string;
  p_client_id : option Z;
  p_status : string;
  p_deadline : date;
  p_budget : Q
}.

Record TimeEntry := mkTimeEntry {
  e_id : Z;
  e_project_id : Z;
  e_date : date;
  e_hours : Q;
  e_description : string
}.

Record Invoice := mkInvoice {
  i_id : Z;
  i_project_id : Z;
  i_amount : Q;
  i_date_issued : date;
  i_status : string
}.

Record Store := mkStore {
  users : list User;
  clients : list Client;
  projects : list Project;
  time_entries : list TimeEntry;
  invoices : list Invoice
}.

Definition empty_store : Store := mkStore [] [] [] [] [].

(** ** Python and SQLAlchemy primitives used by the handlers *)

(** [sum(xs)]: starts from 0 and adds from the left. *)
Definition py_sum (xs : list Q) : Q := fold_left Qplus xs 0%Q.

(** [max(xs, default=1)]: the first greatest element, the default on []. *)
Definition py_max_default (xs : list Q) (default : Q) : Q :=
  match xs with
  | [] => default
  | x :: t => fold_left (fun m y => if Qle_bool y m then m else y) t x
  end.

(** [col == v] on a nullable integer column: [None] compiles to IS NULL. *)
Definition opt_eqb (a b : option Z) : bool :=
  match a, b with
  | Some x, Some y => x =? y
  | None, None => true
  | _, _ => false
  end.

(** [col.in_(ids)]. *)
Definition in_ (ids : list Z) (x : Z) : bool := existsb (Z.eqb x) ids.

(** A stable sort, as Python's [list.sort] and as [ORDER BY] on rows read
    in rowid order: [le x y] says that [x] may stand before [y]. *)
Fixpoint insert_by {A : Type} (le : A -> A -> bool) (x : A) (l : list A)
  : list A :=
  match l with
  | [] => [x]
  | y :: t => if le x y then x :: l else y :: insert_by le x t
  end.

Definition sort_by {A : Type} (le : A -> A -> bool) (l : list A) : list A :=
  fold_right (insert_by le) [] l.

(** A [dict] with string keys: insertion order is kept and an assignment to
    a key already present keeps that key's position. *)
Definition dict := list (string * Q).

Fixpoint dict_get (d : dict) (k : string) (default : Q) : Q :=
  match d with
  | [] => default
  | (k', v) :: t => if String.eqb k' k then v else dict_get t k default
  end.

Fixpoint dict_set (d : dict) (k : string) (v : Q) : dict :=
  match d with
  | [] => [(k, v)]
  | (k', v') :: t =>
      if String.eqb k' k then (k', v) :: t else (k', v') :: dict_set t k v
  end.

(** The same with integer keys ([project_totals] of the time-log page). *)
Fixpoint zdict_set (d : list (Z * Q)) (k : Z) (v : Q) : list (Z * Q) :=
  match d with
  | [] => [(k, v)]
  | (k', v') :: t =>
      if k' =? k then (k', v) :: t else (k', v') :: zdict_set t k v
  end.

(** Exceptions that leave a handler, and what a handler yields. *)
Inductive exn :=
| HTTPException (status_code : Z) (detail : string)
| ValueError
| AttributeError
| OverflowError.

Inductive outcome (A : Type) :=
| Returned (a : A)
| Raised (e : exn).
Arguments Returned {A} a.
Arguments Raised {A} e.

(** ** Queries shared by the handlers *)

(** [db.query(Project).filter(Project.client_id == user.client_id).all()] *)
Definition projects_of_client (db : Store) (user : User) : list Project :=
  filter (fun p => opt_eqb (p_client_id p) (u_client_id user)) (projects db).

(** The relationship [p.time_entries]. *)
Definition p_time_entries (db : Store) (p : Project) : list TimeEntry :=
  filter (fun e => e_project_id e =? p_id p) (time_entries db).

(** The relationships [inv.project] and [project.client]: the row with that
    primary key, [None] when there is none. *)
Definition i_project (db : Store) (inv : Invoice) : option Project :=
  find (fun p => p_id p =? i_project_id inv) (projects db).

Definition p_client (db : Store) (p : Project) : option Client :=
  match p_client_id p with
  | Some cid => find (fun c => c_id c =? cid) (clients db)
  | None => None
  end.

Definition is_client (user : User) : bool := String.eqb (u_role user) "client".

(** ** GET /dashboard *)

Record DashboardCtx := mkDashboardCtx {
  active_projects : Z;
  total_hours : Q;
  pending_invoices : Z;
  total_earned : Q
}.

Definition count {A : Type} (l : list A) : Z := Z.of_nat (List.length l).

(** [today] is [date.today()], read from the system clock. *)
Definition dashboard (today : date) (db : Store) (user : User)
  : DashboardCtx :=
  if is_client user then
    let projects := projects_of_client db user in
    let project_ids := map p_id projects in
    {| active_projects :=
         count (filter (fun p => String.eqb (p_status p) "active") projects);
       total_hours :=
         py_sum (map e_hours
           (flat_map
              (fun p => filter (fun e => month (e_date e) =? month today)
                               (p_time_entries db p))
              projects));
       pending_invoices :=
         count (filter (fun i => in_ project_ids (i_project_id i)
                                 && String.eqb (i_status i) "sent")
                       (invoices db));
       total_earned :=
         py_sum (map i_amount
           (filter (fun i => in_ project_ids (i_project_id i)
                             && String.eqb (i_status i) "paid")
                   (invoices db))) |}
  else
    let entries :=
      filter (fun e => date_leb (mkDate (year today) (month today) 1)
                                (e_date e))
             (time_entries db) in
    let paid_invoices :=
      filter (fun i => String.eqb (i_status i) "paid") (invoices db) in
    {| active_projects :=
         count (filter (fun p => String.eqb (p_status p) "active")
                       (projects db));
       total_hours := py_sum (map e_hours entries);
       pending_invoices :=
         count (filter (fun i => negb (String.eqb (i_status i) "paid"))
                       (invoices db));
       total_earned := py_sum (map i_amount paid_invoices) |}.

(** ** GET /projects *)

Definition projects_page (db : Store) (user : User) : list Project :=
  if is_client user then projects_of_client db user else projects db.

(** ** GET /timelogs *)

Record TimelogsCtx := mkTimelogsCtx {
  tl_entries : list TimeEntry;
  tl_projects : list Project;
  tl_project_totals : list (Z * Q)
}.

(** [order_by(TimeEntry.date.desc())] *)
Definition date_desc (a b : TimeEntry) : bool := date_leb (e_date b) (e_date a).

Definition timelogs_page (db : Store) (user : User) : TimelogsCtx :=
  let projects :=
    if is_client user then projects_of_client db user else projects db in
  let entries :=
    if is_client user then
      let p_ids := map p_id projects in
      sort_by date_desc
        (filter (fun e => in_ p_ids (e_project_id e)) (time_entries db))
    else sort_by date_desc (time_entries db) in
  let project_totals :=
    fold_left
      (fun totals p =>
         zdict_set totals (p_id p) (py_sum (map e_hours (p_time_entries db p))))
      projects [] in
  {| tl_entries := entries;
     tl_projects := projects;
     tl_project_totals := project_totals |}.

(** ** GET /invoices *)

Definition invoices_page (db : Store) (user : User) : list Invoice :=
  if is_client user then
    let projects := projects_of_client db user in
    let p_ids := map p_id projects in
    filter (fun i => in_ p_ids (i_project_id i)) (invoices db)
  else invoices db.

(** ** GET /reports *)

(** [strftime("%Y-%m")]: the C library writes the year in decimal, on as
    many digits as it has (a year before 1000 on fewer than four), and
    the month on two. *)
Definition digit (n : Z) : ascii := ascii_of_nat (48 + Z.to_nat (n mod 10)).

Definition strftime_Ym (d : date) : string :=
  String.append (NilZero.string_of_int (Z.to_int (year d)))
    (String "-"%char (String (digit (month d / 10))
      (String (digit (month d)) EmptyString))).

(** The loop over the paid invoices: both dicts are updated per invoice;
    [inv.project.client.name] raises AttributeError when the invoice's
    project or that project's client is missing. *)
Fixpoint revenue_loop (db : Store) (invs : list Invoice)
  (monthly_revenue client_revenue : dict) : outcome (dict * dict) :=
  match invs with
  | [] => Returned (monthly_revenue, client_revenue)
  | inv :: rest =>
      let m := strftime_Ym (i_date_issued inv) in
      let monthly_revenue :=
        dict_set monthly_revenue m
          (dict_get monthly_revenue m 0 + i_amount inv)%Q in
      match i_project db inv with
      | None => Raised AttributeError
      | Some p =>
          match p_client db p with
          | None => Raised AttributeError
          | Some c =>
              let c_name := c_name c in
              let client_revenue :=
                dict_set client_revenue c_name
                  (dict_get client_revenue c_name 0 + i_amount inv)%Q in
              revenue_loop db rest monthly_revenue client_revenue
          end
      end
  end.

Record ReportsCtx := mkReportsCtx {
  project_data : list (string * Q);
  monthly_data : list (string * Q);
  client_data : list (string * Q);
  max_hours : Q;
  max_monthly : Q;
  max_client : Q
}.

Definition by_month (a b : string * Q) : bool := String.leb (fst a) (fst b).
Definition by_amount_desc (a b : string * Q) : bool :=
  Qle_bool (snd b) (snd a).

Definition reports_page (db : Store) (user : User) : outcome ReportsCtx :=
  let projects :=
    if is_client user then projects_of_client db user else projects db in
  let project_data :=
    map (fun p => (p_name p, py_sum (map e_hours (p_time_entries db p))))
        projects in
  let revenue :=
    if negb (is_client user) then
      revenue_loop db
        (filter (fun i => String.eqb (i_status i) "paid") (invoices db))
        [] []
    else Returned ([], []) in
  match revenue with
  | Raised e => Raised e
  | Returned (monthly_revenue, client_revenue) =>
      let monthly_data := sort_by by_month monthly_revenue in
      let client_data := sort_by by_amount_desc client_revenue in
      Returned
        {| project_data := project_data;
           monthly_data := monthly_data;
           client_data := client_data;
           max_hours := py_max_default (map snd project_data) 1;
           max_monthly := py_max_default (map snd monthly_data) 1;
           max_client := py_max_default (map snd client_data) 1 |}
  end.

(** ** POST /timelogs *)

(** *** The calendar *)

Definition is_leap (y : Z) : bool :=
  (y mod 4 =? 0) && (negb (y mod 100 =? 0) || (y mod 400 =? 0)).

Definition days_in_month (y m : Z) : Z :=
  if m =? 2 then (if is_leap y then 29 else 28)
  else if (m =? 4) || (m =? 6) || (m =? 9) || (m =? 11) then 30
  else 31.

(** What the constructor [date(y, m, d)] accepts. *)
Definition valid_date (d : date) : bool :=
  (1 <=? year d) && (year d <=? 9999)
  && (1 <=? month d) && (month d <=? 12)
  && (1 <=? day d) && (day d <=? days_in_month (year d) (month d)).

(** *** The form fields

    The date field is a Python [str], a sequence of code points; a
    literal of this development is such a string of ASCII characters. *)
Definition str := list Z.

Definition of_string (s : string) : str :=
  map (fun c => Z.of_nat (nat_of_ascii c)) (list_ascii_of_string s).

(** The interpreter's Unicode database, as far as the parser consults it:
    [decimal c] is the value of the code point [c] when it is a decimal
    digit (what the class [\d] matches and [int] converts).  The table
    depends on the Unicode version the interpreter was built with; all
    versions hold the ASCII digits and give a digit a value from 0 to 9. *)
Record Unicode := mkUnicode {
  decimal : Z -> option Z;
  decimal_ascii : forall c, 48 <= c <= 57 -> decimal c = Some (c - 48);
  decimal_value : forall c v, decimal c = Some v -> 0 <= v <= 9
}.

(** The field [hours: float]: the form accepts every float, also "inf"
    and "nan". *)
Inductive form_float :=
| Finite (q : Q)
| Infinite (negative : bool)
| NaN.

(** *** [datetime.strptime(date_str, "%Y-%m-%d").date()]

    The format compiles to the regular expression
    [(\d\d\d\d)-(1[0-2]|0[1-9]|[1-9])-(3[0-1]|[1-2]\d|0[1-9]|[1-9]| [1-9])],
    which must match the whole string; [int] converts the three groups,
    which are then handed to the [date] constructor, which rejects year 0
    and a day beyond the month's length.  [\d] is any decimal digit of
    Unicode, the bracketed classes are ASCII.  The alternatives of a group
    are tried in order; a shorter alternative never succeeds where a
    longer one has matched, since the character that follows would have
    to be a digit and "-" (or the end of the string) at once. *)

(** The value of an ASCII digit, and the class [[lo-hi]]. *)
Definition digit_val (c : Z) : Z := c - 48.

Definition in_range (lo hi : Z) (c : Z) : bool :=
  (lo <=? digit_val c) && (digit_val c <=? hi).

(** The group of [%m], with the rest of the string. *)
Definition parse_month (s : str) : option (Z * str) :=
  match s with
  | a :: b :: r =>
      if ((a =? 49) && in_range 0 2 b) || ((a =? 48) && in_range 1 9 b)
      then Some (10 * digit_val a + digit_val b, r)
      else if in_range 1 9 a then Some (digit_val a, b :: r)
      else None
  | [a] => if in_range 1 9 a then Some (digit_val a, []) else None
  | [] => None
  end.

(** The group of [%d], with the rest of the string. *)
Definition parse_day (ucd : Unicode) (s : str) : option (Z * str) :=
  match s with
  | a :: b :: r =>
      if (a =? 51) && in_range 0 1 b
      then Some (10 * digit_val a + digit_val b, r)
      else
        match (if in_range 1 2 a then decimal ucd b else None) with
        | Some v => Some (10 * digit_val a + v, r)
        | None =>
            if (a =? 48) && in_range 1 9 b then Some (digit_val b, r)
            else if in_range 1 9 a then Some (digit_val a, b :: r)
            else if (a =? 32) && in_range 1 9 b then Some (digit_val b, r)
            else None
        end
  | [a] => if in_range 1 9 a then Some (digit_val a, []) else None
  | [] => None
  end.

(** The group of [%Y]: four decimal digits. *)
Definition parse_year (ucd : Unicode) (s : str) : option (Z * str) :=
  match s with
  | y1 :: y2 :: y3 :: y4 :: r =>
      match decimal ucd y1, decimal ucd y2, decimal ucd y3, decimal ucd y4 with
      | Some v1, Some v2, Some v3, Some v4 =>
          Some (1000 * v1 + 100 * v2 + 10 * v3 + v4, r)
      | _, _, _, _ => None
      end
  | _ => None
  end.

Definition strptime_Ymd (ucd : Unicode) (date_str : str) : option date :=
  match parse_year ucd date_str with
  | Some (y, dash1 :: s1) =>
      if dash1 =? 45 then
        match parse_month s1 with
        | Some (m, dash2 :: s2) =>
            if dash2 =? 45 then
              match parse_day ucd s2 with
              | Some (d, []) =>
                  if (1 <=? y) && (d <=? days_in_month y m)
                  then Some (mkDate y m d)
                  else None
              | _ => None
              end
            else None
        | _ => None
        end
      else None
  | _ => None
  end.

(** *** The handler *)

(** The primary key SQLite gives a new row: one more than the greatest
    rowid of the table, 1 in an empty table. *)
Definition next_id (ids : list Z) : Z := fold_right Z.max 0 ids + 1.

Inductive Redirect := RedirectResponse (url : string) (status_code : Z).

Definition add_time_entry (db : Store) (e : TimeEntry) : Store :=
  {| users := users db;
     clients := clients db;
     projects := projects db;
     time_entries := time_entries db ++ [e];
     invoices := invoices db |}.

(** An INTEGER column holds a signed 64-bit integer: binding any other
    Python int raises OverflowError when the INSERT is executed. *)
Definition int64 (n : Z) : bool := (- 2 ^ 63 <=? n) && (n <? 2 ^ 63).

(** What a Float column holds for a float that is not a number of this
    development: an infinity as it is, and NULL for nan. *)
Inductive cell :=
| Inf (negative : bool)
| Null.

(** A time entry whose hours are such a cell. *)
Record OddEntry := mkOddEntry {
  o_id : Z;
  o_project_id : Z;
  o_date : date;
  o_hours : cell;
  o_description : string
}.

(** The tables a request leaves behind: a store of this development, or
    such a store and one further time entry, the last row of its table,
    whose hours are not a number.  The handlers that sum hours are not
    modelled on the latter: with the cell NULL, [sum] raises TypeError on
    every page that reaches the row. *)
Inductive written :=
| Within (db : Store)
| Beyond (db : Store) (row : OddEntry).

(** The rows with numbers for hours. *)
Definition within (w : written) : Store :=
  match w with
  | Within db => db
  | Beyond db _ => db
  end.

(** The column [time_entries.project_id] after the request. *)
Definition written_project_ids (w : written) : list Z :=
  match w with
  | Within db => map e_project_id (time_entries db)
  | Beyond db row => map e_project_id (time_entries db) ++ [o_project_id row]
  end.

(** The handler yields its response, or the exception it raises, and the
    tables the request leaves behind.  The date is parsed while the row is
    built; the row is inserted by [db.commit()] as it is: the handler looks
    up no Project, and SQLite does not enforce the foreign key of
    [time_entries.project_id] unless asked to, which [database.py] does
    not do. *)
Definition add_timelog (ucd : Unicode) (db : Store) (user : User)
  (project_id : Z) (hours : form_float) (description : string)
  (date_str : str) : outcome Redirect * written :=
  if is_client user then
    (Raised (HTTPException 403 "Clients cannot add time logs"), Within db)
  else
    match strptime_Ymd ucd date_str with
    | None => (Raised ValueError, Within db)
    | Some d =>
        if int64 project_id then
          let id := next_id (map e_id (time_entries db)) in
          match hours with
          | Finite q =>
              let new_entry :=
                {| e_id := id;
                   e_project_id := project_id;
                   e_date := d;
                   e_hours := q;
                   e_description := description |} in
              (Returned (RedirectResponse "/timelogs" 303),
               Within (add_time_entry db new_entry))
          | Infinite negative =>
              (Returned (RedirectResponse "/timelogs" 303),
               Beyond db (mkOddEntry id project_id d (Inf negative)
                                     description))
          | NaN =>
              (Returned (RedirectResponse "/timelogs" 303),
               Beyond db (mkOddEntry id project_id d Null description))
          end
        else (Raised OverflowError, Within db)
    end.

(** ** Seeding: [init_db] of [database.py] *)

(** What [init_db] reads from outside the store: the clock, the outputs of
    the random generator in the order they are drawn, and the salted
    password hash. *)
Record World := mkWorld {
  today : date;
  draw : nat -> Z;
  pwd_hash : string -> string
}.

(** Computations that draw random numbers: the state is the number of
    draws made so far. *)
Definition rand (A : Type) : Type := nat -> A * nat.

Definition ret {A : Type} (a : A) : rand A := fun n => (a, n).

Definition bind {A B : Type} (c : rand A) (k : A -> rand B) : rand B :=
  fun n => let (a, n') := c n in k a n'.

Declare Scope rand_scope.
Delimit Scope rand_scope with rand.
Notation "x <- c ;; k" := (bind c (fun x => k))
  (at level 61, c at next level, right associativity) : rand_scope.

(** [random.randint(a, b)], for [a <= b]. *)
Definition randint (w : World) (a b : Z) : rand Z :=
  fun n => (a + draw w n mod (b - a + 1), S n).

(** [random.choice] on a list that is not empty. *)
Definition choice {A : Type} (w : World) (x : A) (xs : list A) : rand A :=
  fun n =>
    (nth (Z.to_nat (draw w n mod Z.of_nat (List.length (x :: xs)))) (x :: xs) x,
     S n).

(** [round(random.uniform(1.0, 8.0), 1)]: a number of tenths from 1.0
    to 8.0. *)
Definition uniform_tenths (w : World) : rand Q :=
  fun n => (Qmake (10 + draw w n mod 71) 10, S n).

(** The body of a [for i in range(n)] loop run for [i = start, ...],
    collecting what each round builds. *)
Fixpoint for_range {A : Type} (n : nat) (start : Z) (body : Z -> rand A)
  : rand (list A) :=
  match n with
  | O => ret []
  | S n' =>
      (a <- body start ;;
       rest <- for_range n' (start + 1) body ;;
       ret (a :: rest))%rand
  end.

(** [today + timedelta(days=n)] *)
Definition next_day (d : date) : date :=
  if day d <? days_in_month (year d) (month d)
  then mkDate (year d) (month d) (day d + 1)
  else if month d <? 12 then mkDate (year d) (month d + 1) 1
  else mkDate (year d + 1) 1 1.

Definition prev_day (d : date) : date :=
  if 1 <? day d then mkDate (year d) (month d) (day d - 1)
  else if 1 <? month d
  then mkDate (year d) (month d - 1) (days_in_month (year d) (month d - 1))
  else mkDate (year d - 1) 12 31.

Definition add_days (d : date) (n : Z) : date :=
  if 0 <=? n then Nat.iter (Z.to_nat n) next_day d
  else Nat.iter (Z.to_nat (- n)) prev_day d.

(** [name.split()[0]] *)
Definition is_space (c : ascii) : bool :=
  let n := nat_of_ascii c in
  (Nat.eqb n 32) || ((Nat.leb 9 n) && (Nat.leb n 13)).

Fixpoint take_word (s : string) : string :=
  match s with
  | EmptyString => EmptyString
  | String c r => if is_space c then EmptyString else String c (take_word r)
  end.

Fixpoint first_word (s : string) : string :=
  match s with
  | EmptyString => EmptyString
  | String c r => if is_space c then first_word r else take_word s
  end.

(** The rows [init_db] builds; the primary keys are set when the rows are
    flushed, in the order in which they were added. *)
Definition seed_project (w : World) (c1 c2 c3 : Client) (pid0 : Z) (i : Z)
  : rand Project :=
  (client <- choice w c1 [c2; c3] ;;
   status <- choice w "active" ["completed"; "on-hold"] ;;
   days <- randint w 10 60 ;;
   budget <- randint w 1000 10000 ;;
   ret {| p_id := pid0 + i;
          p_name := "Project " ++ first_word (c_name client) ++ " "
                    ++ String (digit (i + 1)) EmptyString;
          p_client_id := Some (c_id client);
          p_status := status;
          p_deadline := add_days (today w) days;
          p_budget := inject_Z budget |})%rand.

Definition seed_entry (w : World) (p : Project) (ps : list Project) (eid0 : Z)
  (i : Z) : rand TimeEntry :=
  (project <- choice w p ps ;;
   days <- randint w 0 30 ;;
   hours <- uniform_tenths w ;;
   ret {| e_id := eid0 + i;
          e_project_id := p_id project;
          e_date := add_days (today w) (- days);
          e_hours := hours;
          e_description := "Development and testing" |})%rand.

Definition seed_invoice (w : World) (p : Project) (ps : list Project)
  (iid0 : Z) (i : Z) : rand Invoice :=
  (project <- choice w p ps ;;
   amount <- randint w 500 3000 ;;
   days <- randint w 0 20 ;;
   status <- choice w "draft" ["sent"; "paid"] ;;
   ret {| i_id := iid0 + i;
          i_project_id := p_id project;
          i_amount := inject_Z amount;
          i_date_issued := add_days (today w) (- days);
          i_status := status |})%rand.

Definition init_db (w : World) (db : Store) : Store :=
  match users db with
  | _ :: _ => db
  | [] =>
      let cid0 := next_id (map c_id (clients db)) in
      let c1 := mkClient cid0 "TechCorp Inc." "contact@techcorp.com" in
      let c2 := mkClient (cid0 + 1) "DesignStudio Pro" "hello@designstudio.com" in
      let c3 := mkClient (cid0 + 2) "Startup Ventures" "founders@startup.io" in
      let uid0 := next_id (map u_id (users db)) in
      let new_users :=
        [ mkUser uid0 "admin" (pwd_hash w "admin") "admin" None;
          mkUser (uid0 + 1) "freelancer" (pwd_hash w "freelancer")
                 "freelancer" None;
          mkUser (uid0 + 2) "client" (pwd_hash w "client") "client"
                 (Some (c_id c1)) ] in
      let pid0 := next_id (map p_id (projects db)) in
      let seeded :=
        (new_projects <- for_range 5 0 (seed_project w c1 c2 c3 pid0) ;;
         match new_projects with
         | [] => ret ([], [], [])  (* five rounds never leave [projects] empty *)
         | p :: ps =>
             new_entries <-
               for_range 20 0
                 (seed_entry w p ps (next_id (map e_id (time_entries db)))) ;;
             new_invoices <-
               for_range 4 0
                 (seed_invoice w p ps (next_id (map i_id (invoices db)))) ;;
             ret (new_projects, new_entries, new_invoices)
         end)%rand in
      let '(new_projects, new_entries, new_invoices) := fst (seeded O) in
      {| users := users db ++ new_users;
         clients := clients db ++ [c1; c2; c3];
         projects := projects db ++ new_projects;
         time_entries := time_entries db ++ new_entries;
         invoices := invoices db ++ new_invoices |}
  end.

(** ** Vocabulary of the specification *)

(** The visible-project set of a user, as the access-control contract
    words it: the projects whose [client_id] is the user's. *)
Definition visible_project (db : Store) (user : User) (p : Project) : Prop :=
  In p (projects db) /\ p_client_id p = u_client_id user.

Definition in_visible_set (db : Store) (user : User) (project_id : Z) : Prop :=
  exists p, visible_project db user p /\ p_id p = project_id.

(** The stores the application can be in while every hours value that is
    posted is a finite number: the store of the first run, and any store
    a logged-in user of it reaches by a successful POST /timelogs (no
    other handler writes).  A successful post of "inf" or "nan" leaves
    these stores for tables that are [Beyond] them. *)
Inductive reachable : Store -> Prop :=
| reach_seed (w : World) : reachable (init_db w empty_store)
| reach_add (ucd : Unicode) (db db' : Store) (user : User) (project_id : Z)
    (hours : form_float) (description : string) (date_str : str)
    (r : Redirect) :
    reachable db ->
    In user (users db) ->
    add_timelog ucd db user project_id hours description date_str
    = (Returned r, Within db') ->
    reachable db'.

(** The referential invariant of the data model for time entries: every
    TimeEntry references an existing Project. *)
Definition project_exists (db : Store) (project_id : Z) : Prop :=
  exists p, In p (projects db) /\ p_id p = project_id.

Definition entries_reference_projects (db : Store) : Prop :=
  forall e, In e (time_entries db) -> project_exists db (e_project_id e).

(** The client's dashboard hours as the specification words them: the
    entries of the visible projects dated in the current calendar month,
    month and year both matching today's. *)
Definition spec_client_total_hours (today : date) (db : Store) (user : User)
  : Q :=
  py_sum (map e_hours
    (flat_map
       (fun p => filter (fun e => (month (e_date e) =? month today)
                                  && (year (e_date e) =? year today))
                        (p_time_entries db p))
       (projects_of_client db user))).

(** The referential invariant the reports rely on: a paid invoice has its
    project, and that project its client. *)
Definition paid_invoices_resolve (db : Store) : Prop :=
  forall inv, In inv (invoices db) -> i_status inv = "paid" ->
  exists p c, i_project db inv = Some p /\ p_client db p = Some c.

(** The key under which the reports group an invoice. *)
Definition month_key (inv : Invoice) : string := strftime_Ym (i_date_issued inv).

(** The other referential invariants of the data model: every Invoice
    references an existing Project, every Project an existing Client. *)
Definition invoices_reference_projects (db : Store) : Prop :=
  forall inv, In inv (invoices db) -> In (i_project_id inv) (map p_id (projects db)).

Definition projects_reference_clients (db : Store) : Prop :=
  forall p, In p (projects db) ->
  exists cid, p_client_id p = Some cid /\ In cid (map c_id (clients db)).

(** The "YYYY-MM-DD" form of a date. *)
Definition isoformat (d : date) : str :=
  [48 + (year d / 1000) mod 10; 48 + (year d / 100) mod 10;
   48 + (year d / 10) mod 10; 48 + year d mod 10; 45;
   48 + (month d / 10) mod 10; 48 + month d mod 10; 45;
   48 + (day d / 10) mod 10; 48 + day d mod 10].



(** Every time entry references an existing Project, for the tables a
    request leaves behind. *)
Definition written_reference_projects (w : written) : Prop :=
  forall project_id, In project_id (written_project_ids w) ->
  exists p, In p (projects (within w)) /\ p_id p = project_id.

(** ** Sample data *)

(** A first run on 15 March 2024 in which the n-th random draw is n. *)
Definition sample_world : World :=
  mkWorld (mkDate 2024 3 15) (fun n => Z.of_nat n) (fun s => s).

Definition sample_store : Store := init_db sample_world empty_store.

(** A Unicode database with the ASCII digits and the Arabic-Indic digits
    U+0660 to U+0669, as every version of Unicode has them. *)
Definition sample_ucd : Unicode.
Proof.
  refine (mkUnicode
            (fun c => if (48 <=? c) && (c <=? 57) then Some (c - 48)
                      else if (1632 <=? c) && (c <=? 1641) then Some (c - 1632)
                      else None) _ _).
  - intros c H. destruct ((48 <=? c) && (c <=? 57)) eqn:E; [reflexivity |].
    apply andb_false_iff in E as [E|E]; apply Z.leb_gt in E; lia.
  - intros c v.
    destruct ((48 <=? c) && (c <=? 57)) eqn:E.
    + apply andb_true_iff in E as [E1 E2].
      apply Z.leb_le in E1, E2. intros [= <-]. lia.
    + destruct ((1632 <=? c) && (c <=? 1641)) eqn:E'; [| discriminate].
      apply andb_true_iff in E' as [E1 E2].
      apply Z.leb_le in E1, E2. intros [= <-]. lia.
Defined.

Definition sample_admin : User := mkUser 1 "admin" "admin" "admin" None.
Definition sample_client : User :=
  mkUser 3 "client" "client" "client" (Some 1).

(** A client with one project, on which five hours were logged on
    10 March 2023 (by POST /timelogs with the date "2023-03-10"). *)
Definition last_year_store : Store :=
  {| users := [mkUser 1 "admin" "h1" "admin" None;
               mkUser 2 "client" "h2" "client" (Some 1)];
     clients := [mkClient 1 "TechCorp Inc." "contact@techcorp.com"];
     projects := [mkProject 1 "Website" (Some 1) "active"
                            (mkDate 2024 6 30) 5000];
     time_entries := [mkTimeEntry 1 1 (mkDate 2023 3 10) 5 "Design"];
     invoices := [] |}.

Definition last_year_client : User := mkUser 2 "client" "h2" "client" (Some 1).

(** A first run in which the first project goes to the first client and
    every other draw is 1: the other four projects go to the second
    client, and all twenty time entries to the second project. *)
Definition idle_project_world : World :=
  mkWorld (mkDate 2024 3 15) (fun n => if Nat.eqb n 0 then 0 else 1)
          (fun s => s).

Definition idle_project_store : Store := init_db idle_project_world empty_store.

(** The sample store after the admin has posted -1000 hours on project 1
    for 15 March 2024. *)
Definition negative_hours_store : Store :=
  within (snd (add_timelog sample_ucd sample_store sample_admin 1
                 (Finite (Qmake (-1000) 1)) "correction"
                 (of_string "2024-03-15"))).


(** ** Further vocabulary: lookups, key order, primary keys *)

(** [project_totals[k]], as the time-log template reads it. *)
Fixpoint zdict_lookup (d : list (Z * Q)) (k : Z) : option Q :=
  match d with
  | [] => None
  | (k', v) :: t => if k' =? k then Some v else zdict_lookup t k
  end.

(** The hours logged on the project of a given id. *)
Definition hours_on (db : Store) (project_id : Z) : Q :=
  py_sum (map e_hours
            (filter (fun e => e_project_id e =? project_id) (time_entries db))).

(** [inv.project.client.name], when both relationships resolve. *)
Definition client_name_of (db : Store) (inv : Invoice) : option string :=
  match i_project db inv with
  | Some p =>
      match p_client db p with
      | Some c => Some (c_name c)
      | None => None
      end
  | None => None
  end.

Definition has_client_name (db : Store) (name : string) (inv : Invoice) : bool :=
  match client_name_of db inv with
  | Some n => String.eqb n name
  | None => false
  end.

(** The primary keys of each table are pairwise distinct. *)
Definition unique_ids (db : Store) : Prop :=
  NoDup (map u_id (users db)) /\ NoDup (map c_id (clients db))
  /\ NoDup (map p_id (projects db)) /\ NoDup (map e_id (time_entries db))
  /\ NoDup (map i_id (invoices db)).

(** The integers [start, start + 1, ...], [n] of them. *)
Fixpoint zseq (start : Z) (n : nat) : list Z :=
  match n with
  | O => []
  | S n' => start :: zseq (start + 1) n'
  end.

(** The keys of a dict in which the keys [l] are set one after the other,
    starting from the keys [seen]: each key stands where it first
    occurred. *)
Fixpoint first_seen_from (seen l : list string) : list string :=
  match l with
  | [] => seen
  | k :: t =>
      first_seen_from
        (if existsb (String.eqb k) seen then seen else seen ++ [k]) t
  end.

(** The client names of a list of invoices, in order. *)
Definition client_names (db : Store) (invs : list Invoice) : list string :=
  flat_map (fun i => match client_name_of db i with
                     | Some n => [n]
                     | None => []
                     end) invs.

Definition paid (db : Store) : list Invoice :=
  filter (fun i => String.eqb (i_status i) "paid") (invoices db).

(** ** Authentication: [get_current_user], [login_required], [login] *)

(** The libraries behind the session: [verify] is [pwd_context.verify]
    (password, hash), [dumps] signs a username into a token, and [loads]
    is [serializer.loads(token, max_age=3600*24)] at the time of the
    request, [None] when it raises (bad signature, expired). *)
Record Crypto := mkCrypto {
  verify : string -> string -> bool;
  dumps : string -> string;
  loads : string -> option string
}.

(** [db.query(User).filter(User.username == username).first()] *)
Definition user_by_name (db : Store) (username : string) : option User :=
  find (fun u => String.eqb (u_username u) username) (users db).

(** The request is its "session" cookie, if any; an empty cookie counts as
    none, and every exception of the lookup is swallowed. *)
Definition get_current_user (cr : Crypto) (cookie : option string)
  (db : Store) : option User :=
  match cookie with
  | None => None
  | Some EmptyString => None
  | Some token =>
      match loads cr token with
      | Some username => user_by_name db username
      | None => None
      end
  end.

(** [login_required] returns the user or raises the 307 exception whose
    Location header is /login. *)
Inductive gate_outcome :=
| Authenticated (user : User)
| RedirectException (status_code : Z) (location : string).

Definition login_required (user : option User) : gate_outcome :=
  match user with
  | None => RedirectException 307 "/login"
  | Some u => Authenticated u
  end.

(** GET /: a redirect with the default status 307. *)
Definition root (user : option User) : Redirect :=
  match user with
  | Some _ => RedirectResponse "/dashboard" 307
  | None => RedirectResponse "/login" 307
  end.

(** POST /login: the redirect, and the session cookie it sets, if any. *)
Definition login (cr : Crypto) (db : Store) (username password : string)
  : Redirect * option string :=
  match user_by_name db username with
  | None => (RedirectResponse "/login?error=Invalid credentials" 303, None)
  | Some user =>
      if verify cr password (u_hashed_password user)
      then (RedirectResponse "/dashboard" 303, Some (dumps cr username))
      else (RedirectResponse "/login?error=Invalid credentials" 303, None)
  end.

(** A signer that prefixes the username with a mark, and a verifier for
    the unsalted hash of the sample world. *)
Definition sample_crypto : Crypto :=
  {| verify := fun password hash => String.eqb password hash;
     dumps := fun username => String "s" username;
     loads := fun token =>
                match token with
                | String "s" username => Some username
                | _ => None
                end |}.

(** * Properties *)

(** ** Facts about the primitives *)

Lemma opt_eqb_eq (a b : option Z) : opt_eqb a b = true <-> a = b.
Proof.
  destruct a as [x|], b as [y|]; simpl; split; intro H;
    try discriminate; try reflexivity.
  - apply Z.eqb_eq in H. now subst.
  - injection H as ->. apply Z.eqb_refl.
Qed.

Lemma in__In (ids : list Z) (x : Z) : in_ ids x = true <-> In x ids.
Proof.
  unfold in_. rewrite existsb_exists. split.
  - intros [y [Hy E]]. apply Z.eqb_eq in E. now subst.
  - intro H. exists x. split; [assumption | apply Z.eqb_refl].
Qed.

Lemma is_client_true (user : User) :
  is_client user = true <-> u_role user = "client".
Proof. unfold is_client. apply String.eqb_eq. Qed.

Lemma is_client_false (user : User) :
  is_client user = false <-> u_role user <> "client".
Proof. unfold is_client. apply String.eqb_neq. Qed.

Section Sorting.
Context {A : Type} (le : A -> A -> bool).

Lemma insert_by_perm (x : A) (l : list A) :
  Permutation (insert_by le x l) (x :: l).
Proof.
  induction l as [|y t IH]; simpl.
  - apply Permutation_refl.
  - destruct (le x y).
    + apply Permutation_refl.
    + eapply perm_trans; [apply perm_skip, IH | apply perm_swap].
Qed.

Lemma sort_by_perm (l : list A) : Permutation (sort_by le l) l.
Proof.
  induction l as [|x t IH]; simpl.
  - apply perm_nil.
  - eapply perm_trans; [apply insert_by_perm | apply perm_skip, IH].
Qed.

Lemma sort_by_In (l : list A) (x : A) : In x (sort_by le l) <-> In x l.
Proof.
  split; apply Permutation_in;
    [apply sort_by_perm | apply Permutation_sym, sort_by_perm].
Qed.

Hypothesis le_total : forall x y, le x y = true \/ le y x = true.

Lemma insert_by_HdRel (a x : A) (l : list A) :
  le a x = true -> HdRel (fun u v => le u v = true) a l ->
  HdRel (fun u v => le u v = true) a (insert_by le x l).
Proof.
  intros Hax Hal. destruct l as [|y t]; simpl.
  - now constructor.
  - destruct (le x y); constructor; [assumption | now inversion Hal].
Qed.

Lemma insert_by_sorted (x : A) (l : list A) :
  Sorted (fun u v => le u v = true) l ->
  Sorted (fun u v => le u v = true) (insert_by le x l).
Proof.
  induction 1 as [|y t Ht IH Hhd]; simpl.
  - repeat constructor.
  - destruct (le x y) eqn:E.
    + constructor; [now constructor | now constructor].
    + constructor; [exact IH |].
      apply insert_by_HdRel; [| exact Hhd].
      destruct (le_total x y) as [H|H]; [congruence | exact H].
Qed.

Lemma sort_by_sorted (l : list A) :
  Sorted (fun u v => le u v = true) (sort_by le l).
Proof.
  induction l as [|x t IH]; simpl.
  - constructor.
  - now apply insert_by_sorted.
Qed.
End Sorting.

Lemma zdict_set_keys (d : list (Z * Q)) (k : Z) (v : Q) (kv : Z * Q) :
  In kv (zdict_set d k v) -> fst kv = k \/ In (fst kv) (map fst d).
Proof.
  induction d as [|[k' v'] t IH]; simpl.
  - intros [<-|[]]. now left.
  - destruct (k' =? k) eqn:E.
    + intros [<-|H]; simpl.
      * right. now left.
      * right. right. now apply in_map.
    + intros [<-|H]; simpl.
      * right. now left.
      * destruct (IH H) as [?|?]; [now left | right; now right].
Qed.

Lemma project_totals_keys (f : Project -> Q) (ps : list Project)
  (d : list (Z * Q)) (kv : Z * Q) :
  In kv (fold_left (fun totals p => zdict_set totals (p_id p) (f p)) ps d) ->
  In (fst kv) (map fst d) \/ In (fst kv) (map p_id ps).
Proof.
  revert d. induction ps as [|p t IH]; simpl; intros d H.
  - left. now apply in_map.
  - destruct (IH _ H) as [H'|H'].
    + apply in_map_iff in H' as [kv' [E H']].
      destruct (zdict_set_keys _ _ _ _ H') as [K|K].
      * right. left. congruence.
      * left. congruence.
    + right. now right.
Qed.

(** ** C1: what a client sees *)

Lemma projects_of_client_visible (db : Store) (user : User) (p : Project) :
  In p (projects_of_client db user) <-> visible_project db user p.
Proof.
  unfold projects_of_client, visible_project.
  rewrite filter_In, opt_eqb_eq. reflexivity.
Qed.

Lemma client_ids_visible (db : Store) (user : User) (pid : Z) :
  In pid (map p_id (projects_of_client db user)) <-> in_visible_set db user pid.
Proof.
  unfold in_visible_set. rewrite in_map_iff. split.
  - intros [p [E H]]. exists p. now rewrite <- projects_of_client_visible.
  - intros [p [H E]]. exists p. now rewrite projects_of_client_visible.
Qed.

(** C1. For a user of role "client": every Project in the responses of
    GET /projects and GET /timelogs is a project of the user's client
    (its [client_id] is the user's [client_id]); every TimeEntry of
    GET /timelogs, every key of its per-project totals and every Invoice
    of GET /invoices has a [project_id] in that visible project set; and
    GET /reports answers with one row per visible project, in order, and
    nothing else (no monthly or per-client rows). *)
Theorem client_views_are_scoped (db : Store) (user : User) :
  u_role user = "client" ->
  Forall (visible_project db user) (projects_page db user)
  /\ Forall (visible_project db user) (tl_projects (timelogs_page db user))
  /\ Forall (fun e => In e (time_entries db)
                      /\ in_visible_set db user (e_project_id e))
            (tl_entries (timelogs_page db user))
  /\ Forall (fun kv => in_visible_set db user (fst kv))
            (tl_project_totals (timelogs_page db user))
  /\ Forall (fun i => In i (invoices db)
                      /\ in_visible_set db user (i_project_id i))
            (invoices_page db user)
  /\ exists r ps,
       reports_page db user = Returned r
       /\ Forall (visible_project db user) ps
       /\ project_data r
          = map (fun p => (p_name p, py_sum (map e_hours (p_time_entries db p))))
                ps
       /\ monthly_data r = [] /\ client_data r = [].
Proof.
  intro Hrole. apply is_client_true in Hrole.
  assert (Hvis : Forall (visible_project db user) (projects_of_client db user)).
  { apply Forall_forall. intros p. apply projects_of_client_visible. }
  unfold projects_page, timelogs_page, invoices_page, reports_page.
  rewrite Hrole. simpl.
  repeat split; try exact Hvis.
  - apply Forall_forall. intros e He.
    apply sort_by_In, filter_In in He as [He Hin].
    split; [exact He |]. now apply client_ids_visible, in__In.
  - apply Forall_forall. intros kv Hkv.
    apply project_totals_keys in Hkv as [[]|H].
    now apply client_ids_visible.
  - apply Forall_forall. intros i Hi.
    apply filter_In in Hi as [Hi Hin].
    split; [exact Hi |]. now apply client_ids_visible, in__In.
  - eexists. exists (projects_of_client db user).
    split; [reflexivity |]. simpl. repeat split. exact Hvis.
Qed.

Lemma client_views_are_scoped_witness :
  u_role sample_client = "client"
  /\ Forall (visible_project sample_store sample_client)
            (projects_page sample_store sample_client).
Proof.
  split; [reflexivity |].
  apply (client_views_are_scoped sample_store sample_client). reflexivity.
Defined.

(** ** C4, C5, C10: POST /timelogs *)

Ltac bools :=
  repeat match goal with
  | H : _ && _ = true |- _ => apply andb_true_iff in H; destruct H
  | H : _ || _ = true |- _ => apply orb_true_iff in H; destruct H
  | H : in_range _ _ _ = true |- _ => unfold in_range, digit_val in H
  | H : (_ <=? _) = true |- _ => apply Z.leb_le in H
  | H : (_ =? _) = true |- _ => apply Z.eqb_eq in H
  end.

(** Replaces the comparisons of the goal that arithmetic decides. *)
Ltac zbool :=
  repeat match goal with
  | |- context [?a <=? ?b] =>
      first [ rewrite (proj2 (Z.leb_le a b)) by lia
            | rewrite (proj2 (Z.leb_gt a b)) by lia ]
  | |- context [?a =? ?b] =>
      first [ rewrite (proj2 (Z.eqb_eq a b)) by lia
            | rewrite (proj2 (Z.eqb_neq a b)) by lia ]
  | |- context [?a <? ?b] =>
      first [ rewrite (proj2 (Z.ltb_lt a b)) by lia
            | rewrite (proj2 (Z.ltb_ge a b)) by lia ]
  end;
  cbn [andb orb negb].

Local Opaque Z.mul.

Lemma parse_month_range (s r : str) (m : Z) :
  parse_month s = Some (m, r) -> 1 <= m <= 12.
Proof.
  unfold parse_month. destruct s as [|a [|b s']].
  - discriminate.
  - destruct (in_range 1 9 a) eqn:E; [|discriminate].
    intros [= <- <-]. unfold digit_val. bools. lia.
  - destruct (_ || _) eqn:E1.
    + intros [= <- <-]. unfold digit_val. bools; lia.
    + destruct (in_range 1 9 a) eqn:E2; [|discriminate].
      intros [= <- <-]. unfold digit_val. bools. lia.
Qed.

Lemma parse_day_range (ucd : Unicode) (s r : str) (d : Z) :
  parse_day ucd s = Some (d, r) -> 1 <= d <= 31.
Proof.
  unfold parse_day. destruct s as [|a [|b s']].
  - discriminate.
  - destruct (in_range 1 9 a) eqn:E; [|discriminate].
    intros [= <- <-]. unfold digit_val. bools. lia.
  - destruct ((a =? 51) && in_range 0 1 b) eqn:E1.
    + intros [= <- <-]. unfold digit_val. bools. lia.
    + destruct (in_range 1 2 a) eqn:E2.
      * destruct (decimal ucd b) as [v|] eqn:Ev.
        -- intros [= <- <-]. apply decimal_value in Ev.
           unfold digit_val. bools. lia.
        -- destruct ((a =? 48) && in_range 1 9 b) eqn:E3.
           ++ intros [= <- <-]. unfold digit_val. bools. lia.
           ++ destruct (in_range 1 9 a) eqn:E4.
              ** intros [= <- <-]. unfold digit_val. bools. lia.
              ** destruct ((a =? 32) && in_range 1 9 b) eqn:E5; [|discriminate].
                 intros [= <- <-]. unfold digit_val. bools. lia.
      * destruct ((a =? 48) && in_range 1 9 b) eqn:E3.
        -- intros [= <- <-]. unfold digit_val. bools. lia.
        -- destruct (in_range 1 9 a) eqn:E4.
           ++ intros [= <- <-]. unfold digit_val. bools. lia.
           ++ destruct ((a =? 32) && in_range 1 9 b) eqn:E5; [|discriminate].
              intros [= <- <-]. unfold digit_val. bools. lia.
Qed.

Lemma parse_year_range (ucd : Unicode) (s r : str) (y : Z) :
  parse_year ucd s = Some (y, r) -> 0 <= y <= 9999.
Proof.
  unfold parse_year. destruct s as [|y1 [|y2 [|y3 [|y4 s']]]]; try discriminate.
  destruct (decimal ucd y1) as [v1|] eqn:E1; [| discriminate].
  destruct (decimal ucd y2) as [v2|] eqn:E2; [| discriminate].
  destruct (decimal ucd y3) as [v3|] eqn:E3; [| discriminate].
  destruct (decimal ucd y4) as [v4|] eqn:E4; [| discriminate].
  apply decimal_value in E1, E2, E3, E4. intros [= <- <-]. lia.
Qed.

(** Whatever [strptime] returns is a date of the calendar. *)
Lemma strptime_valid (ucd : Unicode) (date_str : str) (d : date) :
  strptime_Ymd ucd date_str = Some d -> valid_date d = true.
Proof.
  unfold strptime_Ymd.
  destruct (parse_year ucd date_str) as [[y [|dash1 s1]]|] eqn:PY;
    try discriminate.
  destruct (dash1 =? 45); [| discriminate].
  destruct (parse_month s1) as [[m [|dash2 s2]]|] eqn:PM; try discriminate.
  destruct (dash2 =? 45); [| discriminate].
  destruct (parse_day ucd s2) as [[dd [|c s3]]|] eqn:PD; try discriminate.
  destruct ((1 <=? y) && (dd <=? days_in_month y m)) eqn:E2; [| discriminate].
  intros [= <-]. apply parse_year_range in PY. apply parse_month_range in PM.
  apply parse_day_range in PD.
  unfold valid_date. cbn [year month day]. bools.
  repeat (apply andb_true_iff; split); apply Z.leb_le; lia.
Qed.

Local Transparent Z.mul.

(** A date written "YYYY-MM-DD" is read as its three numbers, and stands
    or falls with the checks of the [date] constructor. *)
Lemma decimal_digit (ucd : Unicode) (k : Z) :
  0 <= k <= 9 -> decimal ucd (48 + k) = Some k.
Proof.
  intro H. rewrite decimal_ascii by lia. f_equal. lia.
Qed.

Lemma four_digits (y : Z) :
  0 <= y <= 9999 ->
  1000 * ((y / 1000) mod 10) + 100 * ((y / 100) mod 10)
  + 10 * ((y / 10) mod 10) + y mod 10 = y.
Proof. intro H. Z.div_mod_to_equations. lia. Qed.

Lemma parse_year_iso (ucd : Unicode) (y : Z) (rest : str) :
  0 <= y <= 9999 ->
  parse_year ucd (48 + (y / 1000) mod 10 :: 48 + (y / 100) mod 10
                  :: 48 + (y / 10) mod 10 :: 48 + y mod 10 :: rest)
  = Some (y, rest).
Proof.
  intro H. unfold parse_year.
  rewrite !decimal_digit
    by (match goal with
        | |- 0 <= ?a mod 10 <= 9 =>
            pose proof (Z.mod_pos_bound a 10 ltac:(lia)); lia
        end).
  now rewrite four_digits.
Qed.

Lemma parse_month_pad2 (m : Z) (rest : str) :
  1 <= m <= 12 ->
  parse_month (48 + (m / 10) mod 10 :: 48 + m mod 10 :: rest) = Some (m, rest).
Proof.
  intro H. rewrite <- (Z2Nat.id m) by lia.
  assert (B : (1 <= Z.to_nat m <= 12)%nat) by lia.
  generalize dependent (Z.to_nat m). intros n B.
  do 13 (destruct n as [|n]; [first [lia | reflexivity] |]). lia.
Qed.

Lemma parse_day_pad2 (ucd : Unicode) (d : Z) (rest : str) :
  1 <= d <= 31 ->
  parse_day ucd (48 + (d / 10) mod 10 :: 48 + d mod 10 :: rest) = Some (d, rest).
Proof.
  intro H.
  assert (T : 0 <= (d / 10) mod 10 <= 3 /\ 0 <= d mod 10 <= 9
              /\ d = 10 * ((d / 10) mod 10) + d mod 10)
    by (Z.div_mod_to_equations; lia).
  revert T. generalize ((d / 10) mod 10) (d mod 10). intros t u (Ht & Hu & ->).
  unfold parse_day, in_range, digit_val.
  rewrite decimal_digit by lia.
  replace (48 + t - 48) with t by lia. replace (48 + u - 48) with u by lia.
  assert (C : t = 0 \/ t = 1 \/ t = 2 \/ t = 3) by lia.
  destruct C as [-> | [-> | [-> | ->]]]; zbool; reflexivity.
Qed.

Lemma strptime_iso (ucd : Unicode) (y m d : Z) :
  0 <= y <= 9999 -> 1 <= m <= 12 -> 1 <= d <= 31 ->
  strptime_Ymd ucd (isoformat (mkDate y m d))
  = if (1 <=? y) && (d <=? days_in_month y m) then Some (mkDate y m d)
    else None.
Proof.
  intros Hy Hm Hd. unfold strptime_Ymd, isoformat. cbn [year month day].
  rewrite parse_year_iso by lia. rewrite Z.eqb_refl.
  rewrite parse_month_pad2 by lia. rewrite Z.eqb_refl.
  rewrite parse_day_pad2 by lia. reflexivity.
Qed.

Lemma days_in_month_le_31 (y m : Z) : days_in_month y m <= 31.
Proof.
  unfold days_in_month.
  destruct (m =? 2); [destruct (is_leap y); lia |].
  destruct (_ || _); lia.
Qed.

(** Every date of the calendar, written "YYYY-MM-DD", parses to itself. *)
Lemma strptime_isoformat (ucd : Unicode) (d : date) :
  valid_date d = true -> strptime_Ymd ucd (isoformat d) = Some d.
Proof.
  destruct d as [y m dd]. unfold valid_date. cbn [year month day].
  intro H. bools.
  pose proof (days_in_month_le_31 y m) as D31.
  rewrite strptime_iso by lia.
  rewrite (proj2 (Z.leb_le 1 y)) by lia.
  rewrite (proj2 (Z.leb_le dd (days_in_month y m))) by lia.
  reflexivity.
Qed.

Example strptime_feb_30 (ucd : Unicode) :
  strptime_Ymd ucd (of_string "2024-02-30") = None.
Proof.
  change (of_string "2024-02-30") with (isoformat (mkDate 2024 2 30)).
  rewrite strptime_iso by lia. reflexivity.
Qed.

Example strptime_leap_day (ucd : Unicode) :
  strptime_Ymd ucd (of_string "2024-02-29") = Some (mkDate 2024 2 29)
  /\ strptime_Ymd ucd (of_string "2023-02-29") = None.
Proof.
  change (of_string "2024-02-29") with (isoformat (mkDate 2024 2 29)).
  change (of_string "2023-02-29") with (isoformat (mkDate 2023 2 29)).
  rewrite !strptime_iso by lia. split; reflexivity.
Qed.

(** [\d] takes the digits of other scripts: with the Arabic-Indic digit
    five for the last character the string is the fifteenth of March;
    months and days of one digit are read as well. *)
Example strptime_other_digits :
  strptime_Ymd sample_ucd (of_string "2024-03-1" ++ [1637])
  = Some (mkDate 2024 3 15)
  /\ strptime_Ymd sample_ucd (of_string "2024-3-5") = Some (mkDate 2024 3 5).
Proof. split; reflexivity. Qed.

(** The second digit of a day from 10 to 29 is any decimal digit. *)
Lemma strptime_day_decimal (ucd : Unicode) (c v : Z) :
  decimal ucd c = Some v ->
  strptime_Ymd ucd (of_string "2024-03-1" ++ [c]) = Some (mkDate 2024 3 (10 + v)).
Proof.
  intro E. pose proof (decimal_value ucd c v E) as R.
  change (of_string "2024-03-1" ++ [c])
    with ([50; 48; 50; 52; 45; 48; 51; 45; 49; c]).
  unfold strptime_Ymd, parse_year. rewrite !decimal_ascii by lia.
  change (parse_month [48; 51; 45; 49; c]) with (Some (3, [45; 49; c])).
  cbv beta iota. change (45 =? 45) with true. cbv beta iota.
  change (parse_day ucd [49; c])
    with (match decimal ucd c with
          | Some v => Some (10 * digit_val 49 + v, [])
          | None => Some (digit_val 49, [c])
          end).
  rewrite E. cbv beta iota.
  change (days_in_month (1000 * (50 - 48) + 100 * (48 - 48) + 10 * (50 - 48)
                         + (52 - 48)) 3) with 31.
  change (10 * digit_val 49) with 10.
  change (1000 * (50 - 48) + 100 * (48 - 48) + 10 * (50 - 48) + (52 - 48))
    with 2024.
  change (1 <=? 2024) with true. cbn [andb].
  rewrite (proj2 (Z.leb_le (10 + v) 31)) by lia. reflexivity.
Qed.

Lemma next_id_fresh (ids : list Z) : Forall (fun i => i < next_id ids) ids.
Proof.
  unfold next_id. induction ids as [|i t IH]; constructor; simpl.
  - lia.
  - eapply Forall_impl; [| exact IH]. simpl. intros; lia.
Qed.

(** What a post that is answered by the redirect and stays within the
    stores of this development has done. *)
Lemma add_timelog_returned (ucd : Unicode) (db db' : Store) (user : User)
  (project_id : Z) (hours : form_float) (description : string)
  (date_str : str) (resp : Redirect) :
  add_timelog ucd db user project_id hours description date_str
  = (Returned resp, Within db') ->
  exists id d q,
    strptime_Ymd ucd date_str = Some d
    /\ hours = Finite q
    /\ int64 project_id = true
    /\ Forall (fun e => e_id e < id) (time_entries db)
    /\ db' = add_time_entry db (mkTimeEntry id project_id d q description).
Proof.
  unfold add_timelog. destruct (is_client user); [discriminate |].
  destruct (strptime_Ymd ucd date_str) as [d|]; [| discriminate].
  destruct (int64 project_id); [| discriminate].
  destruct hours as [q|b|]; try discriminate.
  intros [= _ <-]. exists (next_id (map e_id (time_entries db))), d, q.
  repeat split.
  pose proof (next_id_fresh (map e_id (time_entries db))) as F.
  now rewrite Forall_map in F.
Qed.

(** C4. For a user of role "client" and every input, POST /timelogs raises
    the HTTP 403 exception and leaves the store as it was. *)
Theorem add_timelog_client_forbidden (ucd : Unicode) (db : Store)
  (user : User) (project_id : Z) (hours : form_float)
  (description : string) (date_str : str) :
  u_role user = "client" ->
  add_timelog ucd db user project_id hours description date_str
  = (Raised (HTTPException 403 "Clients cannot add time logs"), Within db).
Proof.
  intro H. apply is_client_true in H. unfold add_timelog. now rewrite H.
Qed.

Lemma add_timelog_client_forbidden_witness :
  u_role sample_client = "client"
  /\ add_timelog sample_ucd sample_store sample_client 1 (Finite (5 # 2))
       "review" (of_string "2024-03-01")
     = (Raised (HTTPException 403 "Clients cannot add time logs"),
        Within sample_store).
Proof.
  split; [reflexivity |].
  apply (add_timelog_client_forbidden sample_ucd sample_store sample_client).
  reflexivity.
Defined.

(** C5, as stated, fails on a well-formed date: for a project_id beyond
    the signed 64-bit range the INSERT raises OverflowError and no row is
    written, and for the hours "nan" the row that is written holds NULL,
    not the hours given. *)
Lemma well_formed_date_row_not_as_given :
  strptime_Ymd sample_ucd (of_string "2024-03-01") = Some (mkDate 2024 3 1)
  /\ add_timelog sample_ucd sample_store sample_admin (2 ^ 63)
       (Finite (5 # 2)) "review" (of_string "2024-03-01")
     = (Raised OverflowError, Within sample_store)
  /\ add_timelog sample_ucd sample_store sample_admin 1 NaN "review"
       (of_string "2024-03-01")
     = (Returned (RedirectResponse "/timelogs" 303),
        Beyond sample_store
          (mkOddEntry 21 1 (mkDate 2024 3 1) Null "review")).
Proof. repeat split. Qed.

(** C5, as the code has it.  For a user who is not a client: when the date
    string does not parse under "%Y-%m-%d" the request fails (the
    ValueError leaves the handler) and the store is unchanged,
    "2024-02-30" being such a string, while every date of the calendar
    written "YYYY-MM-DD" does parse, to itself.  When the string parses,
    to a date [d] of the calendar: for a project_id outside the signed
    64-bit range the request fails with OverflowError and the store is
    unchanged; for a project_id within it the handler redirects to
    /timelogs with 303 and exactly one row is written, the last of its
    table under a fresh id, with the given project_id and description and
    the date [d]; its hours are the hours given when these are a number
    (finite or infinite), and NULL when they are nan. *)
Theorem add_timelog_checks_date (ucd : Unicode) (db : Store) (user : User)
  (project_id : Z) (hours : form_float) (description : string)
  (date_str : str) :
  u_role user <> "client" ->
  (strptime_Ymd ucd date_str = None ->
   add_timelog ucd db user project_id hours description date_str
   = (Raised ValueError, Within db))
  /\ strptime_Ymd ucd (of_string "2024-02-30") = None
  /\ (forall d, valid_date d = true ->
                strptime_Ymd ucd (isoformat d) = Some d)
  /\ (forall d, strptime_Ymd ucd date_str = Some d ->
      valid_date d = true
      /\ (int64 project_id = false ->
          add_timelog ucd db user project_id hours description date_str
          = (Raised OverflowError, Within db))
      /\ (int64 project_id = true ->
          exists id,
            Forall (fun e => e_id e <> id) (time_entries db)
            /\ add_timelog ucd db user project_id hours description date_str
               = (Returned (RedirectResponse "/timelogs" 303),
                  match hours with
                  | Finite q =>
                      Within
                        {| users := users db;
                           clients := clients db;
                           projects := projects db;
                           time_entries :=
                             time_entries db
                             ++ [mkTimeEntry id project_id d q description];
                           invoices := invoices db |}
                  | Infinite negative =>
                      Beyond db (mkOddEntry id project_id d (Inf negative)
                                            description)
                  | NaN =>
                      Beyond db (mkOddEntry id project_id d Null description)
                  end))).
Proof.
  intro H. apply is_client_false in H. unfold add_timelog. rewrite H.
  split; [now intros -> |]. split; [apply strptime_feb_30 |].
  split; [intros d; apply strptime_isoformat |].
  intros d Hd. split; [now apply strptime_valid in Hd |].
  rewrite Hd. split.
  - now intros ->.
  - intros ->. exists (next_id (map e_id (time_entries db))). split.
    + pose proof (next_id_fresh (map e_id (time_entries db))) as F.
      rewrite Forall_map in F. eapply Forall_impl; [| exact F].
      simpl. intros; lia.
    + destruct hours; reflexivity.
Qed.

Lemma add_timelog_checks_date_witness :
  u_role sample_admin <> "client"
  /\ add_timelog sample_ucd sample_store sample_admin 1 (Finite (5 # 2))
       "review" (of_string "2024-02-30")
     = (Raised ValueError, Within sample_store).
Proof.
  assert (H : u_role sample_admin <> "client") by discriminate.
  split; [exact H |].
  apply (add_timelog_checks_date sample_ucd sample_store sample_admin 1
           (Finite (5 # 2)) "review" (of_string "2024-02-30") H).
  reflexivity.
Defined.

(** C10, as stated, fails: not every integer is stored.  For the
    project_id -2^63 - 1 and a well-formed date the request fails with
    OverflowError and no row is written. *)
Lemma project_id_beyond_int64_no_row :
  strptime_Ymd sample_ucd (of_string "2024-03-01") = Some (mkDate 2024 3 1)
  /\ add_timelog sample_ucd sample_store sample_admin (- 2 ^ 63 - 1)
       (Finite (5 # 2)) "review" (of_string "2024-03-01")
     = (Raised OverflowError, Within sample_store).
Proof. split; reflexivity. Qed.

(** C10, as the code has it.  For a user who is not a client, a date
    string that parses and any project_id within the signed 64-bit range,
    POST /timelogs succeeds and writes a TimeEntry with that project_id,
    whatever the hours; the projects are not consulted and stay as they
    were, so when no Project has that id the tables break the invariant
    that every TimeEntry references an existing Project. *)
Theorem add_timelog_ignores_projects (ucd : Unicode) (db : Store)
  (user : User) (project_id : Z) (hours : form_float)
  (description : string) (date_str : str) (d : date) :
  u_role user <> "client" ->
  strptime_Ymd ucd date_str = Some d ->
  int64 project_id = true ->
  exists w,
    add_timelog ucd db user project_id hours description date_str
    = (Returned (RedirectResponse "/timelogs" 303), w)
    /\ In project_id (written_project_ids w)
    /\ projects (within w) = projects db
    /\ (~ project_exists db project_id -> ~ written_reference_projects w)
    /\ (forall q, hours = Finite q ->
        exists db' e,
          w = Within db' /\ In e (time_entries db')
          /\ e_project_id e = project_id
          /\ (~ project_exists db project_id ->
              ~ entries_reference_projects db')).
Proof.
  intros H Hd Hi. apply is_client_false in H.
  unfold add_timelog. rewrite H, Hd, Hi.
  assert (G : forall w, In project_id (written_project_ids w) ->
            projects (within w) = projects db ->
            ~ project_exists db project_id -> ~ written_reference_projects w).
  { intros w Hin Hp Hno Hall. apply Hno. destruct (Hall _ Hin) as [p [Hp' E]].
    exists p. rewrite Hp in Hp'. now split. }
  destruct hours as [q|b|]; eexists; (split; [reflexivity |]).
  - assert (Hin : In project_id
                    (written_project_ids
                       (Within (add_time_entry db
                          (mkTimeEntry (next_id (map e_id (time_entries db)))
                             project_id d q description))))).
    { cbn [written_project_ids add_time_entry time_entries].
      rewrite map_app. apply in_or_app. right. now left. }
    split; [exact Hin |]. split; [reflexivity |].
    split; [now apply G |].
    intros q' [= <-]. eexists. eexists. split; [reflexivity |].
    split; [cbn [add_time_entry time_entries]; apply in_or_app; right;
            left; reflexivity |].
    split; [reflexivity |].
    intros Hno Hall. apply Hno.
    apply (Hall (mkTimeEntry (next_id (map e_id (time_entries db)))
                   project_id d q description)).
    cbn [add_time_entry time_entries]. apply in_or_app. right. now left.
  - assert (Hin : In project_id
                    (written_project_ids
                       (Beyond db
                          (mkOddEntry (next_id (map e_id (time_entries db)))
                             project_id d (Inf b) description)))).
    { cbn [written_project_ids o_project_id]. apply in_or_app. right.
      now left. }
    split; [exact Hin |]. split; [reflexivity |].
    split; [now apply G | discriminate].
  - assert (Hin : In project_id
                    (written_project_ids
                       (Beyond db
                          (mkOddEntry (next_id (map e_id (time_entries db)))
                             project_id d Null description)))).
    { cbn [written_project_ids o_project_id]. apply in_or_app. right.
      now left. }
    split; [exact Hin |]. split; [reflexivity |].
    split; [now apply G | discriminate].
Qed.

Lemma sample_store_no_project_999 : ~ project_exists sample_store 999.
Proof.
  intros [p [Hin E]]. vm_compute in Hin.
  repeat (destruct Hin as [<-|Hin]; [discriminate E |]). exact Hin.
Qed.

Lemma add_timelog_ignores_projects_witness :
  exists w,
    add_timelog sample_ucd sample_store sample_admin 999 (Finite (5 # 2))
      "review" (of_string "2024-03-01")
    = (Returned (RedirectResponse "/timelogs" 303), w)
    /\ ~ written_reference_projects w.
Proof.
  assert (H : u_role sample_admin <> "client") by discriminate.
  destruct (add_timelog_ignores_projects sample_ucd sample_store sample_admin
              999 (Finite (5 # 2)) "review" (of_string "2024-03-01")
              (mkDate 2024 3 1) H eq_refl eq_refl)
    as (w & E & _ & _ & Hbreak & _).
  exists w. split; [exact E |].
  apply Hbreak, sample_store_no_project_999.
Defined.

(** ** C6, C2: the dashboard *)

Lemma filter_none {A : Type} (f : A -> bool) (l : list A) :
  (forall x, In x l -> f x = false) -> filter f l = [].
Proof.
  induction l as [|x t IH]; simpl; intro H.
  - reflexivity.
  - rewrite (H x (or_introl eq_refl)). apply IH. intros y Hy. apply H. now right.
Qed.

(** C6. Dashboard [total_earned] is the sum of [amount] over a selection
    of the invoices: for a user of role "client", the invoices with status
    "paid" whose project is a project of that user's client; for any other
    user (admin, freelancer), all the invoices with status "paid",
    whatever their client; and it is 0 when no invoice is selected. *)
Theorem dashboard_total_earned (today : date) (db : Store) (user : User) :
  exists keep : Invoice -> bool,
    total_earned (dashboard today db user)
    = py_sum (map i_amount (filter keep (invoices db)))
    /\ (u_role user = "client" ->
        forall i, keep i = true <->
                  i_status i = "paid"
                  /\ in_visible_set db user (i_project_id i))
    /\ (u_role user <> "client" ->
        forall i, keep i = true <-> i_status i = "paid")
    /\ ((forall i, In i (invoices db) -> keep i = false) ->
        total_earned (dashboard today db user) = 0%Q).
Proof.
  unfold dashboard. destruct (is_client user) eqn:R.
  - exists (fun i => in_ (map p_id (projects_of_client db user)) (i_project_id i)
                     && String.eqb (i_status i) "paid").
    cbn [total_earned]. split; [reflexivity |]. split; [| split].
    + intros _ i. rewrite andb_true_iff, in__In, client_ids_visible,
        String.eqb_eq. tauto.
    + intro H. apply is_client_true in R. contradiction.
    + intro H. now rewrite (filter_none _ _ H).
  - exists (fun i => String.eqb (i_status i) "paid").
    cbn [total_earned]. split; [reflexivity |]. split; [| split].
    + intro H. apply is_client_false in R. contradiction.
    + intros _ i. apply String.eqb_eq.
    + intro H. now rewrite (filter_none _ _ H).
Qed.

(** C2. On 15 March 2024 the client's dashboard counts the five hours
    logged on 10 March 2023 on the client's project: the handler compares
    the month number only.  The current calendar month, month and year
    matching, holds no entry, so the documented total is 0. *)
Theorem dashboard_client_hours_ignore_year :
  total_hours (dashboard (mkDate 2024 3 15) last_year_store last_year_client)
  = 5%Q
  /\ spec_client_total_hours (mkDate 2024 3 15) last_year_store
       last_year_client = 0%Q.
Proof. split; reflexivity. Qed.

(** What the client branch computes, in general: the entries of the
    visible projects whose month number is today's, of any year. *)
Lemma dashboard_client_hours (today : date) (db : Store) (user : User) :
  u_role user = "client" ->
  total_hours (dashboard today db user)
  = py_sum (map e_hours
      (filter (fun e => month (e_date e) =? month today)
              (flat_map (p_time_entries db) (projects_of_client db user)))).
Proof.
  intro H. apply is_client_true in H. unfold dashboard. rewrite H.
  cbn [total_hours]. do 2 f_equal.
  induction (projects_of_client db user) as [|p t IH]; simpl.
  - reflexivity.
  - now rewrite filter_app, IH.
Qed.

(** ** C3: the chart denominators of the reports *)

Lemma py_max_default_nil (default : Q) : py_max_default [] default = default.
Proof. reflexivity. Qed.

Lemma fold_max_spec (t : list Q) (x : Q) :
  let m := fold_left (fun m y => if Qle_bool y m then m else y) t x in
  In m (x :: t) /\ Forall (fun y => (y <= m)%Q) (x :: t).
Proof.
  revert x. induction t as [|y t IH]; intro x; cbn zeta.
  - simpl. split; [now left |]. constructor; [apply Qle_refl | constructor].
  - simpl fold_left. destruct (Qle_bool y x) eqn:E.
    + destruct (IH x) as [Hin Hall]. split.
      * destruct Hin as [<-|Hin]; [now left | right; now right].
      * inversion Hall as [|? ? Hx Ht]; subst.
        constructor; [exact Hx |]. constructor; [| exact Ht].
        apply Qle_bool_iff in E. eapply Qle_trans; [exact E | exact Hx].
    + destruct (IH y) as [Hin Hall]. split.
      * right. exact Hin.
      * inversion Hall as [|? ? Hy Ht]; subst.
        constructor; [| now constructor].
        assert (Hlt : (x < y)%Q).
        { apply Qnot_le_lt. intro C. apply Qle_bool_iff in C. congruence. }
        eapply Qle_trans; [apply Qlt_le_weak, Hlt | exact Hy].
Qed.

(** On a list that is not empty the default plays no part: the result is
    the greatest element, 0 when every element is 0. *)
Lemma py_max_default_cons (x : Q) (t : list Q) (default : Q) :
  In (py_max_default (x :: t) default) (x :: t)
  /\ Forall (fun y => (y <= py_max_default (x :: t) default)%Q) (x :: t).
Proof. apply (fold_max_spec t x). Qed.

(** C3. After a first run in which no time entry fell on the only project
    of the seeded client, that client's report lists the project with 0
    hours and [max_hours] is 0: the default 1 covers the empty list only. *)
Theorem reports_max_hours_zero :
  exists r,
    reports_page idle_project_store sample_client = Returned r
    /\ project_data r = [("Project TechCorp 1", 0%Q)]
    /\ max_hours r = 0%Q
    /\ max_monthly r = 1%Q /\ max_client r = 1%Q.
Proof. eexists. split; [reflexivity |]. repeat split. Qed.

(** ** C9: seeding *)

Lemma for_range_length {A : Type} (n : nat) (start : Z) (body : Z -> rand A)
  (k : nat) :
  List.length (fst (for_range n start body k)) = n.
Proof.
  revert start k. induction n as [|n IH]; intros start k; simpl.
  - reflexivity.
  - unfold bind. destruct (body start k) as [a k1].
    specialize (IH (start + 1) k1).
    destruct (for_range n (start + 1) body k1) as [rest k2].
    simpl in *. now rewrite IH.
Qed.

Lemma for_range_Forall {A : Type} (P : A -> Prop) (n : nat) (start : Z)
  (body : Z -> rand A) (k : nat) :
  (forall i j, P (fst (body i j))) ->
  Forall P (fst (for_range n start body k)).
Proof.
  intro H. revert start k. induction n as [|n IH]; intros start k; simpl.
  - constructor.
  - unfold bind. pose proof (H start k) as Ha.
    destruct (body start k) as [a k1].
    specialize (IH (start + 1) k1).
    destruct (for_range n (start + 1) body k1) as [rest k2].
    simpl in *. now constructor.
Qed.

(** The rows a first run adds, named. *)
Lemma init_db_first_run (w : World) (db : Store) :
  users db = [] ->
  exists c1 c2 c3 new_users p ps new_entries new_invoices,
    init_db w db
    = {| users := new_users;
         clients := clients db ++ [c1; c2; c3];
         projects := projects db ++ p :: ps;
         time_entries := time_entries db ++ new_entries;
         invoices := invoices db ++ new_invoices |}
    /\ map u_role new_users = ["admin"; "freelancer"; "client"]
    /\ map c_id [c1; c2; c3]
       = (let c := next_id (map c_id (clients db)) in [c; c + 1; c + 2])
    /\ List.length (p :: ps) = 5%nat
    /\ List.length new_entries = 20%nat
    /\ List.length new_invoices = 4%nat
    /\ Forall (fun q => In (p_client_id q) (map Some (map c_id [c1; c2; c3])))
              (p :: ps)
    /\ Forall (fun e => In (e_project_id e) (map p_id (p :: ps))
                        /\ (0 <= e_hours e)%Q) new_entries
    /\ Forall (fun i => In (i_project_id i) (map p_id (p :: ps))
                        /\ (0 <= i_amount i)%Q) new_invoices.
Proof.
  intro Hu. unfold init_db. rewrite Hu. cbn [app map].
  set (c1 := mkClient _ "TechCorp Inc." _).
  set (c2 := mkClient _ "DesignStudio Pro" _).
  set (c3 := mkClient _ "Startup Ventures" _).
  unfold bind.
  pose proof (for_range_length 5 0
    (seed_project w c1 c2 c3 (next_id (map p_id (projects db)))) O) as Lp.
  pose proof (for_range_Forall
    (fun q => In (p_client_id q) (map Some (map c_id [c1; c2; c3]))) 5 0
    (seed_project w c1 c2 c3 (next_id (map p_id (projects db)))) O) as Fp.
  destruct (for_range 5 0 _ O) as [[|p ps] k1]; [discriminate Lp |].
  pose proof (for_range_length 20 0
    (seed_entry w p ps (next_id (map e_id (time_entries db)))) k1) as Le.
  pose proof (for_range_Forall
    (fun e => In (e_project_id e) (map p_id (p :: ps)) /\ (0 <= e_hours e)%Q)
    20 0 (seed_entry w p ps (next_id (map e_id (time_entries db)))) k1) as Fe.
  destruct (for_range 20 0 _ k1) as [new_entries k2].
  pose proof (for_range_length 4 0
    (seed_invoice w p ps (next_id (map i_id (invoices db)))) k2) as Li.
  pose proof (for_range_Forall
    (fun i => In (i_project_id i) (map p_id (p :: ps)) /\ (0 <= i_amount i)%Q)
    4 0 (seed_invoice w p ps (next_id (map i_id (invoices db)))) k2) as Fi.
  destruct (for_range 4 0 _ k2) as [new_invoices k3].
  cbn [fst] in *.
  exists c1, c2, c3. eexists. exists p, ps, new_entries, new_invoices.
  split; [reflexivity |].
  split; [reflexivity |]. split; [reflexivity |].
  split; [exact Lp |]. split; [exact Le |]. split; [exact Li |].
  split; [| split].
  - apply Fp. intros i j. unfold seed_project, bind, choice, randint, ret.
    cbn [fst p_client_id].
    apply in_map.
    apply (in_map c_id [c1; c2; c3]).
    destruct (nth_in_or_default
                (Z.to_nat (draw w j mod Z.of_nat (List.length [c1; c2; c3])))
                [c1; c2; c3] c1) as [H|H].
    + exact H.
    + rewrite H. now left.
  - apply Fe. intros i j. unfold seed_entry, bind, choice, randint,
      uniform_tenths, ret. cbn [fst e_project_id e_hours]. split.
    + apply in_map.
      destruct (nth_in_or_default
                  (Z.to_nat (draw w j mod Z.of_nat (List.length (p :: ps))))
                  (p :: ps) p) as [H|H].
      * exact H.
      * rewrite H. now left.
    + unfold Qle. cbn [Qnum Qden].
      pose proof (Z.mod_pos_bound (draw w (S (S j))) 71 ltac:(lia)). lia.
  - apply Fi. intros i j. unfold seed_invoice, bind, choice, randint, ret.
    cbn [fst i_project_id i_amount]. split.
    + apply in_map.
      destruct (nth_in_or_default
                  (Z.to_nat (draw w j mod Z.of_nat (List.length (p :: ps))))
                  (p :: ps) p) as [H|H].
      * exact H.
      * rewrite H. now left.
    + unfold Qle, inject_Z. cbn [Qnum Qden].
      pose proof (Z.mod_pos_bound (draw w (S j)) (3000 - 500 + 1) ltac:(lia)).
      lia.
Qed.

(** C9. On the empty store, [init_db] inserts exactly 3 Clients, 3 Users
    of the roles admin, freelancer and client, 5 Projects, 20 TimeEntries
    and 4 Invoices; on any store that holds a User row it inserts nothing
    and returns the store as it is, so a second run after the first
    changes nothing. *)
Theorem init_db_seeds_once (w w' : World) :
  (let db := init_db w empty_store in
   List.length (clients db) = 3%nat
   /\ map u_role (users db) = ["admin"; "freelancer"; "client"]
   /\ List.length (projects db) = 5%nat
   /\ List.length (time_entries db) = 20%nat
   /\ List.length (invoices db) = 4%nat)
  /\ (forall db, users db <> [] -> init_db w' db = db)
  /\ init_db w' (init_db w empty_store) = init_db w empty_store.
Proof.
  assert (Hskip : forall db, users db <> [] -> init_db w' db = db).
  { intros db H. unfold init_db. destruct (users db); [contradiction | reflexivity]. }
  destruct (init_db_first_run w empty_store eq_refl)
    as (c1 & c2 & c3 & us & p & ps & es & ivs & E & Hr & _ & Lp & Le & Li & _).
  split; [| split].
  - cbn zeta. rewrite E. cbn [clients users projects time_entries invoices
      empty_store app]. repeat split; assumption.
  - exact Hskip.
  - apply Hskip. rewrite E. cbn [users]. intro H. rewrite H in Hr. discriminate.
Qed.

Lemma init_db_seeds_once_witness :
  users sample_store <> []
  /\ init_db idle_project_world sample_store = sample_store.
Proof.
  assert (H : users sample_store <> []) by (vm_compute; discriminate).
  split; [exact H |].
  exact (proj1 (proj2 (init_db_seeds_once sample_world idle_project_world))
           sample_store H).
Defined.

(** ** C7: monthly and per-client revenue *)

Section Dict.
Implicit Types (d : dict) (k : string) (v : Q).

Lemma dict_get_set d k v k' default :
  dict_get (dict_set d k v) k' default
  = if String.eqb k k' then v else dict_get d k' default.
Proof.
  induction d as [|[k0 v0] t IH]; simpl.
  - reflexivity.
  - destruct (String.eqb k0 k) eqn:E0; simpl.
    + apply String.eqb_eq in E0. subst k0.
      destruct (String.eqb k k'); reflexivity.
    + destruct (String.eqb k0 k') eqn:E1.
      * apply String.eqb_eq in E1. subst k0.
        rewrite String.eqb_sym in E0. now rewrite E0.
      * exact IH.
Qed.

Lemma dict_set_keys d k v k' :
  In k' (map fst (dict_set d k v)) <-> k' = k \/ In k' (map fst d).
Proof.
  induction d as [|[k0 v0] t IH]; simpl.
  - split; [intros [<-|[]]; now left | intros [->|[]]; now left].
  - destruct (String.eqb k0 k) eqn:E0; simpl.
    + apply String.eqb_eq in E0. subst k0. split; [tauto |].
      intros [->|H]; [now left | exact H].
    + rewrite IH. tauto.
Qed.

Lemma dict_set_NoDup d k v :
  NoDup (map fst d) -> NoDup (map fst (dict_set d k v)).
Proof.
  induction d as [|[k0 v0] t IH]; simpl; intro H.
  - constructor; [intros [] | constructor].
  - inversion H as [|? ? Hk0 Ht]; subst.
    destruct (String.eqb k0 k) eqn:E0; simpl.
    + now constructor.
    + constructor; [| now apply IH].
      rewrite dict_set_keys. intros [->|Hin]; [| contradiction].
      now rewrite String.eqb_refl in E0.
Qed.

Lemma dict_get_In d k v default :
  NoDup (map fst d) -> In (k, v) d -> dict_get d k default = v.
Proof.
  induction d as [|[k0 v0] t IH]; simpl; intros H Hin.
  - contradiction.
  - inversion H as [|? ? Hk0 Ht]; subst.
    destruct Hin as [[= -> ->]|Hin].
    + now rewrite String.eqb_refl.
    + destruct (String.eqb k0 k) eqn:E0.
      * apply String.eqb_eq in E0. subst k0. exfalso. apply Hk0.
        now apply (in_map fst) in Hin.
      * now apply IH.
Qed.


End Dict.

Local Opaque strftime_Ym.


Local Transparent strftime_Ym.

Lemma revenue_loop_returns (db : Store) (invs : list Invoice) :
  (forall inv, In inv invs ->
     exists p c, i_project db inv = Some p /\ p_client db p = Some c) ->
  forall monthly client,
  exists monthly' client',
    revenue_loop db invs monthly client = Returned (monthly', client').
Proof.
  induction invs as [|inv rest IH]; intros H monthly client.
  - now eexists; eexists.
  - cbn [revenue_loop].
    destruct (H inv (or_introl eq_refl)) as (p & c & -> & ->).
    apply IH. intros i Hi. apply H. now right.
Qed.


Lemma filter_filter {A : Type} (f g : A -> bool) (l : list A) :
  filter f (filter g l) = filter (fun x => g x && f x) l.
Proof.
  induction l as [|x t IH]; simpl.
  - reflexivity.
  - destruct (g x); simpl; [destruct (f x) |]; now rewrite IH.
Qed.

(** *** The key of a month *)









(** *** The stores the application reaches keep the references whole *)

Lemma find_In_map {A : Type} (key : A -> Z) (k : Z) (l : list A) :
  In k (map key l) ->
  exists x, find (fun y => key y =? k) l = Some x /\ In x l.
Proof.
  induction l as [|y t IH]; simpl; intro H.
  - contradiction.
  - destruct (key y =? k) eqn:E.
    + exists y. split; [reflexivity | now left].
    + destruct H as [H|H]; [apply Z.eqb_neq in E; contradiction |].
      destruct (IH H) as [x [Hx Hin]]. exists x. split; [exact Hx | now right].
Qed.

Lemma references_resolve (db : Store) :
  invoices_reference_projects db -> projects_reference_clients db ->
  paid_invoices_resolve db.
Proof.
  intros HI HP inv Hin _. unfold i_project, p_client.
  destruct (find_In_map p_id _ _ (HI inv Hin)) as [p [Ep Hp]].
  destruct (HP p Hp) as [cid [Ec Hc]].
  destruct (find_In_map c_id _ _ Hc) as [c [Ecl _]].
  exists p, c. split; [exact Ep |]. now rewrite Ec.
Qed.

Lemma add_timelog_tables (ucd : Unicode) (db : Store) (user : User)
  (project_id : Z) (hours : form_float) (description : string)
  (date_str : str) (r : outcome Redirect) (w : written) :
  add_timelog ucd db user project_id hours description date_str = (r, w) ->
  users (within w) = users db /\ clients (within w) = clients db
  /\ projects (within w) = projects db /\ invoices (within w) = invoices db.
Proof.
  unfold add_timelog. destruct (is_client user).
  - intros [= _ <-]. now repeat split.
  - destruct (strptime_Ymd ucd date_str); [| intros [= _ <-]; now repeat split].
    destruct (int64 project_id); [| intros [= _ <-]; now repeat split].
    destruct hours; intros [= _ <-]; now repeat split.
Qed.

Lemma reachable_references (db : Store) :
  reachable db ->
  invoices_reference_projects db /\ projects_reference_clients db.
Proof.
  induction 1 as [w | ucd db db' user pid hours desc ds r _ [IHi IHp] _ E].
  - destruct (init_db_first_run w empty_store eq_refl)
      as (c1 & c2 & c3 & us & p & ps & es & ivs & E & _ & _ & _ & _ & _
          & Fp & _ & Fi).
    rewrite E. split.
    + intros inv Hin. cbn [invoices projects empty_store app] in *.
      rewrite Forall_forall in Fi. now apply Fi.
    + intros q Hq. cbn [projects clients empty_store app] in *.
      rewrite Forall_forall in Fp. specialize (Fp q Hq).
      apply in_map_iff in Fp as [cid [Ec Hc]].
      exists cid. split; [symmetry; exact Ec | exact Hc].
  - apply add_timelog_tables in E as (_ & Ec & Ep & Ei). cbn [within] in *.
    unfold invoices_reference_projects, projects_reference_clients.
    rewrite Ec, Ep, Ei. now split.
Qed.

Lemma reachable_resolve (db : Store) : reachable db -> paid_invoices_resolve db.
Proof.
  intro H. apply reachable_references in H as [HI HP].
  now apply references_resolve.
Qed.


(** The rows of the sample report, computed. *)
Example sample_monthly_data :
  exists r, reports_page sample_store sample_admin = Returned r
            /\ monthly_data r = [("2024-02", 581%Q); ("2024-03", 593%Q)].
Proof. eexists. split; [vm_compute; reflexivity | reflexivity]. Qed.

(** A paid invoice whose project is missing stops the report. *)
Example reports_dangling_invoice :
  reports_page
    {| users := []; clients := []; projects := []; time_entries := [];
       invoices := [mkInvoice 1 7 1200 (mkDate 2024 3 15) "paid"] |}
    sample_admin
  = Raised AttributeError.
Proof. reflexivity. Qed.

(** ** C8: the sign of the sums *)







Local Opaque strftime_Ym.


Local Transparent strftime_Ym.








(** * Further properties of the handlers *)

(** ** The order of dates *)

Lemma date_leb_spec (a b : date) :
  date_leb a b = true <->
  year a < year b
  \/ (year a = year b
      /\ (month a < month b \/ (month a = month b /\ day a <= day b))).
Proof.
  unfold date_leb.
  rewrite !orb_true_iff, !andb_true_iff, orb_true_iff, andb_true_iff,
    !Z.ltb_lt, !Z.eqb_eq, Z.leb_le.
  reflexivity.
Qed.

Lemma date_leb_total (a b : date) : date_leb a b = true \/ date_leb b a = true.
Proof. rewrite !date_leb_spec. lia. Qed.

Lemma date_leb_trans (a b c : date) :
  date_leb a b = true -> date_leb b c = true -> date_leb a c = true.
Proof. rewrite !date_leb_spec. lia. Qed.

Lemma date_desc_total (a b : TimeEntry) :
  date_desc a b = true \/ date_desc b a = true.
Proof. unfold date_desc. apply date_leb_total. Qed.

(** ** GET /timelogs: the order of the entries and the totals *)

(** X1. The entries of the time-log page are the entries the user may see,
    each as often as the table holds it, latest date first: for a client
    the entries of the visible projects, for anyone else all entries. *)
Theorem timelogs_entries_latest_first (db : Store) (user : User) :
  exists keep : TimeEntry -> bool,
    Permutation (tl_entries (timelogs_page db user))
                (filter keep (time_entries db))
    /\ (forall e, keep e = true <->
                  (u_role user = "client" ->
                   in_visible_set db user (e_project_id e)))
    /\ StronglySorted (fun a b => date_leb (e_date b) (e_date a) = true)
                      (tl_entries (timelogs_page db user)).
Proof.
  assert (St : forall l, StronglySorted
                (fun a b => date_leb (e_date b) (e_date a) = true)
                (sort_by date_desc l)).
  { intro l. apply Sorted_StronglySorted.
    - intros a b c Hab Hbc. eapply date_leb_trans; eassumption.
    - apply (sort_by_sorted date_desc date_desc_total). }
  unfold timelogs_page. cbn [tl_entries]. destruct (is_client user) eqn:R.
  - exists (fun e => in_ (map p_id (projects_of_client db user)) (e_project_id e)).
    split; [apply sort_by_perm |]. split; [| apply St].
    intro e. rewrite in__In, client_ids_visible. apply is_client_true in R.
    tauto.
  - exists (fun _ => true). split; [| split; [| apply St]].
    + eapply perm_trans; [apply sort_by_perm |].
      clear. induction (time_entries db) as [|e t IH]; simpl.
      * constructor.
      * now constructor.
    + intro e. apply is_client_false in R. tauto.
Qed.

Lemma zdict_lookup_set (d : list (Z * Q)) (k k' : Z) (v : Q) :
  zdict_lookup (zdict_set d k v) k'
  = if k =? k' then Some v else zdict_lookup d k'.
Proof.
  induction d as [|[k0 v0] t IH]; simpl.
  - reflexivity.
  - destruct (k0 =? k) eqn:E0; simpl.
    + apply Z.eqb_eq in E0. subst k0. destruct (k =? k'); reflexivity.
    + destruct (k0 =? k') eqn:E1.
      * apply Z.eqb_eq in E1. subst k0. now rewrite Z.eqb_sym, E0.
      * exact IH.
Qed.

Lemma zdict_set_keys_iff (d : list (Z * Q)) (k k' : Z) (v : Q) :
  In k' (map fst (zdict_set d k v)) <-> k' = k \/ In k' (map fst d).
Proof.
  induction d as [|[k0 v0] t IH]; simpl.
  - split; [intros [<-|[]]; now left | intros [->|[]]; now left].
  - destruct (k0 =? k) eqn:E0; simpl.
    + apply Z.eqb_eq in E0. subst k0. split; [tauto |].
      intros [->|H]; [now left | exact H].
    + rewrite IH. tauto.
Qed.

Lemma zdict_set_NoDup (d : list (Z * Q)) (k : Z) (v : Q) :
  NoDup (map fst d) -> NoDup (map fst (zdict_set d k v)).
Proof.
  induction d as [|[k0 v0] t IH]; simpl; intro H.
  - constructor; [intros [] | constructor].
  - inversion H as [|? ? Hk0 Ht]; subst.
    destruct (k0 =? k) eqn:E0; simpl.
    + now constructor.
    + constructor; [| now apply IH].
      rewrite zdict_set_keys_iff. intros [->|Hin]; [| contradiction].
      now rewrite Z.eqb_refl in E0.
Qed.

(** The loop that fills [project_totals], from any starting dict. *)
Lemma project_totals_loop (db : Store) (ps : list Project) :
  forall d,
  let d' := fold_left
              (fun totals p =>
                 zdict_set totals (p_id p)
                   (py_sum (map e_hours (p_time_entries db p)))) ps d in
  (NoDup (map fst d) -> NoDup (map fst d'))
  /\ (forall k, In k (map fst d') <-> In k (map fst d) \/ In k (map p_id ps))
  /\ (forall k, zdict_lookup d' k
                = if in_ (map p_id ps) k then Some (hours_on db k)
                  else zdict_lookup d k).
Proof.
  induction ps as [|p t IH]; intro d; cbn zeta.
  - simpl. repeat split; tauto.
  - cbn [fold_left]. destruct (IH (zdict_set d (p_id p)
        (py_sum (map e_hours (p_time_entries db p))))) as (Hnd & Hkeys & Hget).
    split; [| split].
    + intro H. now apply Hnd, zdict_set_NoDup.
    + intro k. rewrite Hkeys, zdict_set_keys_iff. simpl. intuition congruence.
    + intro k. rewrite Hget, zdict_lookup_set. unfold in_. cbn [map existsb].
      fold (in_ (map p_id t) k).
      destruct (in_ (map p_id t) k); [now rewrite orb_true_r |].
      rewrite orb_false_r, (Z.eqb_sym k (p_id p)).
      destruct (p_id p =? k) eqn:E; [| reflexivity].
      apply Z.eqb_eq in E. subst k. reflexivity.
Qed.

(** X2. [project_totals] has one key per id of a listed project, and under the
    id of each listed project the sum of the hours of all its entries. *)
Theorem timelogs_project_totals (db : Store) (user : User) :
  NoDup (map fst (tl_project_totals (timelogs_page db user)))
  /\ (forall k, In k (map fst (tl_project_totals (timelogs_page db user))) <->
                In k (map p_id (tl_projects (timelogs_page db user))))
  /\ (forall p, In p (tl_projects (timelogs_page db user)) ->
        zdict_lookup (tl_project_totals (timelogs_page db user)) (p_id p)
        = Some (py_sum (map e_hours
                  (filter (fun e => e_project_id e =? p_id p)
                          (time_entries db))))).
Proof.
  unfold timelogs_page. cbn [tl_project_totals tl_projects].
  generalize (if is_client user then projects_of_client db user
              else projects db). intro ps.
  destruct (project_totals_loop db ps []) as (Hnd & Hkeys & Hget).
  split; [apply Hnd; constructor |]. split.
  - intro k. rewrite Hkeys. simpl. tauto.
  - intros p Hp. rewrite Hget.
    rewrite (proj2 (in__In (map p_id ps) (p_id p))); [reflexivity |].
    now apply in_map.
Qed.

Lemma timelogs_project_totals_witness :
  In (mkProject 1 "Project TechCorp 1" (Some 1) "completed"
                (mkDate 2024 3 27) (inject_Z 1003))
     (tl_projects (timelogs_page sample_store sample_client))
  /\ zdict_lookup (tl_project_totals (timelogs_page sample_store sample_client))
                  1
     = Some (py_sum (map e_hours
               (filter (fun e => e_project_id e =? 1)
                       (time_entries sample_store)))).
Proof.
  assert (H : In (mkProject 1 "Project TechCorp 1" (Some 1) "completed"
                            (mkDate 2024 3 27) (inject_Z 1003))
                 (tl_projects (timelogs_page sample_store sample_client)))
    by (vm_compute; left; reflexivity).
  split; [exact H |].
  exact (proj2 (proj2 (timelogs_project_totals sample_store sample_client))
           _ H).
Defined.

(** ** GET /reports: revenue per client, and the chart denominators *)

Local Opaque strftime_Ym.

Lemma revenue_loop_client (db : Store) (invs : list Invoice) :
  forall monthly client monthly' client',
  revenue_loop db invs monthly client = Returned (monthly', client') ->
  (forall k, dict_get client' k 0
             = fold_left Qplus
                 (map i_amount (filter (has_client_name db k) invs))
                 (dict_get client k 0))
  /\ (forall k, In k (map fst client') <->
                In k (map fst client)
                \/ exists i, In i invs /\ client_name_of db i = Some k)
  /\ (NoDup (map fst client) -> NoDup (map fst client')).
Proof.
  induction invs as [|inv rest IH]; intros monthly client monthly' client';
    cbn [revenue_loop].
  - intros [= <- <-]. cbn [filter map fold_left]. repeat split; try tauto.
    intros [H|[i [[] _]]]. exact H.
  - destruct (i_project db inv) as [p|] eqn:Ep; [| discriminate].
    destruct (p_client db p) as [c|] eqn:Ec; [| discriminate].
    assert (En : client_name_of db inv = Some (c_name c))
      by (unfold client_name_of; now rewrite Ep, Ec).
    intro H. apply IH in H as (Hget & Hkeys & Hnodup). split; [| split].
    + intro k. rewrite Hget, dict_get_set. cbn [filter].
      unfold has_client_name at 2. rewrite En.
      destruct (String.eqb (c_name c) k) eqn:E; [| reflexivity].
      apply String.eqb_eq in E. rewrite E. reflexivity.
    + intro k. rewrite Hkeys, dict_set_keys. split.
      * intros [[->|H]|[i [Hi E]]].
        -- right. exists inv. split; [now left | exact En].
        -- now left.
        -- right. exists i. split; [now right | exact E].
      * intros [H|[i [[<-|Hi] E]]].
        -- left. now right.
        -- left. left. congruence.
        -- right. now exists i.
    + intro H. now apply Hnodup, dict_set_NoDup.
Qed.

Lemma dict_set_key_order (d : dict) (k : string) (v : Q) :
  map fst (dict_set d k v)
  = if existsb (String.eqb k) (map fst d) then map fst d
    else map fst d ++ [k].
Proof.
  induction d as [|[k0 v0] t IH]; simpl.
  - reflexivity.
  - rewrite (String.eqb_sym k k0). destruct (String.eqb k0 k); simpl.
    + reflexivity.
    + rewrite IH. now destruct (existsb (String.eqb k) (map fst t)).
Qed.

Lemma revenue_loop_key_order (db : Store) (invs : list Invoice) :
  forall monthly client monthly' client',
  revenue_loop db invs monthly client = Returned (monthly', client') ->
  map fst monthly' = first_seen_from (map fst monthly) (map month_key invs)
  /\ map fst client' = first_seen_from (map fst client) (client_names db invs).
Proof.
  induction invs as [|inv rest IH]; intros monthly client monthly' client';
    cbn [revenue_loop].
  - intros [= <- <-]. now split.
  - destruct (i_project db inv) as [p|] eqn:Ep; [| discriminate].
    destruct (p_client db p) as [c|] eqn:Ec; [| discriminate].
    intro H. apply IH in H as [Hm Hc]. rewrite Hm, Hc, !dict_set_key_order.
    unfold client_names. cbn [map flat_map]. unfold client_name_of at 2.
    rewrite Ep, Ec. split; reflexivity.
Qed.

Local Transparent strftime_Ym.

Lemma by_amount_desc_total (a b : string * Q) :
  by_amount_desc a b = true \/ by_amount_desc b a = true.
Proof.
  unfold by_amount_desc. rewrite !Qle_bool_iff.
  destruct (Qlt_le_dec (snd a) (snd b)) as [H|H];
    [right; now apply Qlt_le_weak | now left].
Qed.

(** X3. For a user who is not a client, on a store whose paid invoices have
    their project and client, [client_data] has one row per name of a
    client with a paid invoice and no other; the row's amount is the sum
    of the amounts of all the paid invoices of clients of that name; and
    the rows stand in descending order of amount. *)
Theorem reports_client_data (db : Store) (user : User) :
  u_role user <> "client" -> paid_invoices_resolve db ->
  exists r,
    reports_page db user = Returned r
    /\ StronglySorted (fun a b => (snd b <= snd a)%Q) (client_data r)
    /\ NoDup (map fst (client_data r))
    /\ (forall n, In n (map fst (client_data r)) <->
                  exists i, In i (invoices db) /\ i_status i = "paid"
                            /\ client_name_of db i = Some n)
    /\ (forall n a, In (n, a) (client_data r) ->
          a = py_sum (map i_amount
                (filter (fun i => String.eqb (i_status i) "paid"
                                  && has_client_name db n i)
                        (invoices db)))).
Proof.
  intros H Hres. apply is_client_false in H. unfold reports_page.
  rewrite H. cbn [negb]. fold (paid db).
  destruct (revenue_loop_returns db (paid db)) with (monthly := @nil (string * Q))
    (client := @nil (string * Q)) as (monthly & client & E).
  { intros inv Hin. apply filter_In in Hin as [Hin Hp].
    apply String.eqb_eq in Hp. now apply Hres. }
  rewrite E. eexists. split; [reflexivity |]. cbn [client_data].
  apply revenue_loop_client in E as (Hget & Hkeys & Hnodup).
  assert (Hperm : Permutation (sort_by by_amount_desc client) client)
    by apply sort_by_perm.
  assert (ND : NoDup (map fst client)) by (apply Hnodup; constructor).
  split; [| split; [| split]].
  - apply Sorted_StronglySorted.
    + intros a b c Hab Hbc. eapply Qle_trans; eassumption.
    + pose proof (sort_by_sorted by_amount_desc by_amount_desc_total client)
        as S.
      eapply Sorted_ind with (P := fun l => Sorted _ l); [constructor | | exact S].
      intros a l _ IHl Hhd. constructor; [exact IHl |].
      destruct Hhd; constructor. now apply Qle_bool_iff.
  - eapply Permutation_NoDup; [| exact ND].
    apply Permutation_map, Permutation_sym, Hperm.
  - intro n. split.
    + intro Hin.
      apply (Permutation_in _ (Permutation_map fst Hperm)) in Hin.
      apply Hkeys in Hin as [[]|[i [Hi Ek]]].
      apply filter_In in Hi as [Hi Hp]. apply String.eqb_eq in Hp.
      now exists i.
    + intros [i (Hi & Hp & Ek)].
      apply (Permutation_in _ (Permutation_map fst (Permutation_sym Hperm))).
      apply Hkeys. right. exists i. split; [| exact Ek].
      apply filter_In. split; [exact Hi | now apply String.eqb_eq].
  - intros n a Hin. apply (Permutation_in _ Hperm) in Hin.
    rewrite <- (dict_get_In client n a 0%Q ND Hin), Hget.
    unfold paid. rewrite filter_filter. reflexivity.
Qed.

Lemma reports_client_data_witness :
  u_role sample_admin <> "client"
  /\ paid_invoices_resolve sample_store
  /\ exists r, reports_page sample_store sample_admin = Returned r
               /\ NoDup (map fst (client_data r)).
Proof.
  assert (H : u_role sample_admin <> "client") by discriminate.
  assert (R : paid_invoices_resolve sample_store)
    by apply reachable_resolve, reach_seed.
  split; [exact H |]. split; [exact R |].
  destruct (reports_client_data sample_store sample_admin H R)
    as (r & E & _ & ND & _).
  exists r. split; [exact E | exact ND].
Defined.

(** *** The sort keeps rows of equal key in their order *)

Section Stable.
Context {A : Type} (le : A -> A -> bool) (same : A -> bool).
Hypothesis same_le : forall x y, same x = true -> same y = true -> le x y = true.

Lemma insert_by_filter (x : A) (l : list A) :
  filter same (insert_by le x l)
  = if same x then x :: filter same l else filter same l.
Proof.
  induction l as [|y t IH]; simpl.
  - reflexivity.
  - destruct (le x y) eqn:E; simpl.
    + reflexivity.
    + rewrite IH. destruct (same x) eqn:Sx; [| reflexivity].
      destruct (same y) eqn:Sy; [| reflexivity].
      rewrite (same_le x y Sx Sy) in E. discriminate.
Qed.

Lemma sort_by_stable (l : list A) :
  filter same (sort_by le l) = filter same l.
Proof.
  induction l as [|x t IH]; simpl.
  - reflexivity.
  - rewrite insert_by_filter, IH. reflexivity.
Qed.
End Stable.

(** X4. For a user who is not a client, [client_data] is a stable sort of the
    per-client totals in the order in which the clients first occur among
    the paid invoices: the rows of any one amount stand in that order.
    Likewise [monthly_data] is the per-month totals, listed by first
    occurrence of the month, sorted by month. *)
Theorem reports_sort_is_stable (db : Store) (user : User) (r : ReportsCtx) :
  u_role user <> "client" ->
  reports_page db user = Returned r ->
  exists monthly_revenue client_revenue : dict,
    map fst monthly_revenue = first_seen_from [] (map month_key (paid db))
    /\ map fst client_revenue = first_seen_from [] (client_names db (paid db))
    /\ Permutation (monthly_data r) monthly_revenue
    /\ Permutation (client_data r) client_revenue
    /\ forall a,
         filter (fun row => Qeq_bool (snd row) a) (client_data r)
         = filter (fun row => Qeq_bool (snd row) a) client_revenue.
Proof.
  intros H. apply is_client_false in H. unfold reports_page.
  rewrite H. cbn [negb]. fold (paid db).
  destruct (revenue_loop db (paid db) [] []) as [[monthly client]|e] eqn:E;
    [| discriminate].
  intros [= <-]. cbn [monthly_data client_data].
  exists monthly, client.
  apply revenue_loop_key_order in E as [Hm Hc].
  split; [exact Hm |]. split; [exact Hc |].
  split; [apply sort_by_perm |]. split; [apply sort_by_perm |].
  intro a. apply sort_by_stable. intros x y Hx Hy.
  unfold by_amount_desc. apply Qle_bool_iff.
  apply Qeq_bool_iff in Hx, Hy. rewrite Hx, Hy. apply Qle_refl.
Qed.

Lemma reports_sort_is_stable_witness :
  exists (r : ReportsCtx) (monthly_revenue client_revenue : dict),
    reports_page sample_store sample_admin = Returned r
    /\ map fst client_revenue
       = first_seen_from [] (client_names sample_store (paid sample_store))
    /\ map fst monthly_revenue
       = first_seen_from [] (map month_key (paid sample_store)).
Proof.
  assert (H : u_role sample_admin <> "client") by discriminate.
  destruct (reports_page sample_store sample_admin) as [r|e] eqn:E;
    [| vm_compute in E; discriminate E].
  destruct (reports_sort_is_stable sample_store sample_admin r H E)
    as (m & c & Hm & Hc & _).
  exists r, m, c. split; [reflexivity |]. split; [exact Hc | exact Hm].
Defined.

(** X5. No row of a chart exceeds the chart's denominator, and the
    denominator is 1 for an empty chart and the amount of one of the rows
    otherwise. *)
Theorem reports_max_bounds_rows (db : Store) (user : User) (r : ReportsCtx) :
  reports_page db user = Returned r ->
  (Forall (fun row => (snd row <= max_hours r)%Q) (project_data r)
   /\ (project_data r = [] /\ max_hours r = 1%Q
       \/ In (max_hours r) (map snd (project_data r))))
  /\ (Forall (fun row => (snd row <= max_monthly r)%Q) (monthly_data r)
      /\ (monthly_data r = [] /\ max_monthly r = 1%Q
          \/ In (max_monthly r) (map snd (monthly_data r))))
  /\ (Forall (fun row => (snd row <= max_client r)%Q) (client_data r)
      /\ (client_data r = [] /\ max_client r = 1%Q
          \/ In (max_client r) (map snd (client_data r)))).
Proof.
  assert (G : forall rows : list (string * Q),
            Forall (fun row => (snd row <= py_max_default (map snd rows) 1)%Q)
                   rows
            /\ (rows = [] /\ py_max_default (map snd rows) 1 = 1%Q
                \/ In (py_max_default (map snd rows) 1) (map snd rows))).
  { intros [|x t].
    - split; [constructor | left; now split].
    - destruct (py_max_default_cons (snd x) (map snd t) 1) as [Hin Hall].
      split; [| right; exact Hin].
      change (snd x :: map snd t) with (map snd (x :: t)) in Hall.
      apply Forall_forall. intros row Hrow.
      apply (proj1 (Forall_forall _ _) Hall (snd row)).
      now apply in_map. }
  unfold reports_page.
  destruct (if negb (is_client user) then _ else _)
    as [[monthly client]|e]; [| discriminate].
  intros [= <-].
  cbn [project_data monthly_data client_data max_hours max_monthly max_client].
  split; [apply G |]. split; apply G.
Qed.

Lemma reports_max_bounds_rows_witness :
  exists r, reports_page sample_store sample_admin = Returned r
            /\ Forall (fun row => (snd row <= max_hours r)%Q) (project_data r).
Proof.
  destruct (reports_page sample_store sample_admin) as [r|e] eqn:E;
    [| vm_compute in E; discriminate E].
  exists r. split; [reflexivity |].
  apply (reports_max_bounds_rows sample_store sample_admin r E).
Defined.

(** ** GET /dashboard against the list pages *)

Lemma count_partition {A : Type} (f : A -> bool) (l : list A) :
  count (filter f l) + count (filter (fun x => negb (f x)) l) = count l.
Proof.
  unfold count. induction l as [|x t IH]; simpl.
  - reflexivity.
  - destruct (f x); simpl List.length; lia.
Qed.

(** X6. The cards of the dashboard count and sum the rows that the list pages
    show to the same user: the active projects of GET /projects and the
    paid invoices of GET /invoices; the pending invoices are the listed
    invoices with status "sent" for a client and all the listed invoices
    that are not paid for anyone else, for whom pending and paid invoices
    together are all the invoices. *)
Theorem dashboard_counts_listed_rows (today : date) (db : Store) (user : User) :
  active_projects (dashboard today db user)
  = count (filter (fun p => String.eqb (p_status p) "active")
                  (projects_page db user))
  /\ total_earned (dashboard today db user)
     = py_sum (map i_amount
                 (filter (fun i => String.eqb (i_status i) "paid")
                         (invoices_page db user)))
  /\ (u_role user = "client" ->
      pending_invoices (dashboard today db user)
      = count (filter (fun i => String.eqb (i_status i) "sent")
                      (invoices_page db user)))
  /\ (u_role user <> "client" ->
      pending_invoices (dashboard today db user)
      = count (filter (fun i => negb (String.eqb (i_status i) "paid"))
                      (invoices_page db user))
      /\ pending_invoices (dashboard today db user)
         + count (filter (fun i => String.eqb (i_status i) "paid")
                         (invoices db))
         = count (invoices db)).
Proof.
  unfold dashboard, projects_page, invoices_page.
  destruct (is_client user) eqn:R;
    cbn [active_projects total_earned pending_invoices];
    rewrite ?filter_filter.
  - apply is_client_true in R.
    split; [reflexivity |]. split; [reflexivity |].
    split; [reflexivity | intro H; contradiction].
  - apply is_client_false in R.
    split; [reflexivity |]. split; [reflexivity |].
    split; [intro H; contradiction |]. intros _.
    split; [reflexivity |]. rewrite Z.add_comm. apply count_partition.
Qed.

(** X7. For a user who is not a client, when no time entry is dated after
    today (and days count from 1), the dashboard's hours are the hours of
    the current calendar month: the lower bound on the date selects the
    entries whose year and month are today's. *)
Theorem dashboard_hours_of_current_month (today : date) (db : Store)
  (user : User) :
  u_role user <> "client" ->
  (forall e, In e (time_entries db) ->
             date_leb (e_date e) today = true /\ 1 <= day (e_date e)) ->
  total_hours (dashboard today db user)
  = py_sum (map e_hours
      (filter (fun e => (year (e_date e) =? year today)
                        && (month (e_date e) =? month today))
              (time_entries db))).
Proof.
  intros H Hpast. apply is_client_false in H. unfold dashboard. rewrite H.
  cbn [total_hours]. do 2 f_equal. apply filter_ext_in. intros e He.
  destruct (Hpast e He) as [Hle Hday]. apply date_leb_spec in Hle.
  apply Bool.eq_iff_eq_true.
  rewrite date_leb_spec, andb_true_iff, !Z.eqb_eq. cbn [year month day]. lia.
Qed.

Lemma dashboard_hours_of_current_month_witness :
  u_role sample_admin <> "client"
  /\ total_hours (dashboard (mkDate 2024 3 15) sample_store sample_admin)
     = py_sum (map e_hours
         (filter (fun e => (year (e_date e) =? 2024)
                           && (month (e_date e) =? 3))
                 (time_entries sample_store))).
Proof.
  assert (H : u_role sample_admin <> "client") by discriminate.
  split; [exact H |].
  apply (dashboard_hours_of_current_month (mkDate 2024 3 15) sample_store
           sample_admin H).
  intros e He. vm_compute in He.
  repeat (destruct He as [<-|He]; [split; [reflexivity | cbn; lia] |]).
  contradiction.
Defined.

(** ** POST /timelogs, then the pages *)

Lemma timelogs_totals_lookup (db : Store) (user : User) (p : Project) :
  In p (tl_projects (timelogs_page db user)) ->
  zdict_lookup (tl_project_totals (timelogs_page db user)) (p_id p)
  = Some (hours_on db (p_id p)).
Proof.
  unfold timelogs_page. cbn [tl_project_totals tl_projects].
  generalize (if is_client user then projects_of_client db user
              else projects db). intros ps Hp.
  destruct (project_totals_loop db ps []) as (_ & _ & Hget).
  rewrite Hget, (proj2 (in__In (map p_id ps) (p_id p))); [reflexivity |].
  now apply in_map.
Qed.

Lemma hours_on_add (db : Store) (e : TimeEntry) (k : Z) :
  hours_on (add_time_entry db e) k
  = if e_project_id e =? k
    then py_sum (map e_hours
                   (filter (fun x => e_project_id x =? k) (time_entries db))
                 ++ [e_hours e])
    else hours_on db k.
Proof.
  unfold hours_on. cbn [time_entries add_time_entry].
  rewrite filter_app, map_app. cbn [filter].
  destruct (e_project_id e =? k).
  - reflexivity.
  - cbn [map]. now rewrite app_nil_r.
Qed.

(** X8. After a successful POST /timelogs whose hours are a finite number,
    the time-log page lists the same projects as before, for every
    viewer; the total of a listed project with the posted project_id is
    the sum of the hours of its earlier entries followed by the posted
    hours, and the total of every other listed project is what it was. *)
Theorem add_timelog_adds_to_total (ucd : Unicode) (db db' : Store)
  (user : User) (project_id : Z) (hours : form_float)
  (description : string) (date_str : str) (resp : Redirect) :
  add_timelog ucd db user project_id hours description date_str
  = (Returned resp, Within db') ->
  exists q,
    hours = Finite q
    /\ forall viewer,
         tl_projects (timelogs_page db' viewer)
         = tl_projects (timelogs_page db viewer)
         /\ forall p, In p (tl_projects (timelogs_page db viewer)) ->
              zdict_lookup (tl_project_totals (timelogs_page db' viewer))
                           (p_id p)
              = if p_id p =? project_id
                then Some (py_sum
                             (map e_hours
                                (filter (fun e => e_project_id e =? project_id)
                                        (time_entries db))
                              ++ [q]))
                else zdict_lookup (tl_project_totals (timelogs_page db viewer))
                                  (p_id p).
Proof.
  intros E.
  apply add_timelog_returned in E as (id & d & q & _ & -> & _ & _ & ->).
  exists q. split; [reflexivity |]. intro viewer.
  assert (P : tl_projects (timelogs_page
                (add_time_entry db
                   (mkTimeEntry id project_id d q description)) viewer)
              = tl_projects (timelogs_page db viewer)) by reflexivity.
  split; [exact P |]. intros p Hp.
  rewrite timelogs_totals_lookup by (rewrite P; exact Hp).
  rewrite hours_on_add. cbn [e_project_id e_hours].
  rewrite (Z.eqb_sym project_id (p_id p)).
  destruct (p_id p =? project_id) eqn:E.
  - apply Z.eqb_eq in E. now rewrite E.
  - symmetry. now apply timelogs_totals_lookup.
Qed.

(** X9. The entry that a successful POST /timelogs with finite hours
    stores is the last row of the table and was not there before; it
    carries the posted project_id, hours and description; it is listed on
    the time-log page of every user who is not a client, and on a
    client's page exactly when its project_id is the id of one of that
    client's projects. *)
Theorem add_timelog_entry_listed (ucd : Unicode) (db db' : Store)
  (user : User) (project_id : Z) (hours : form_float)
  (description : string) (date_str : str) (resp : Redirect) :
  add_timelog ucd db user project_id hours description date_str
  = (Returned resp, Within db') ->
  exists e,
    time_entries db' = time_entries db ++ [e]
    /\ ~ In e (time_entries db)
    /\ e_project_id e = project_id /\ hours = Finite (e_hours e)
    /\ e_description e = description
    /\ forall viewer,
         In e (tl_entries (timelogs_page db' viewer)) <->
         (u_role viewer = "client" -> in_visible_set db viewer project_id).
Proof.
  intros E.
  apply add_timelog_returned in E as (id & d & q & _ & -> & _ & F & ->).
  exists (mkTimeEntry id project_id d q description).
  split; [reflexivity |]. split.
  { intro Hin. rewrite Forall_forall in F. specialize (F _ Hin).
    cbn [e_id] in F. lia. }
  repeat split.
  - intros Hin Hrole. apply is_client_true in Hrole.
    unfold timelogs_page in Hin. rewrite Hrole in Hin. cbn [tl_entries] in Hin.
    apply sort_by_In, filter_In in Hin as [_ Hin].
    apply in__In in Hin. cbn [e_project_id] in Hin.
    exact (proj1 (client_ids_visible db viewer project_id) Hin).
  - intro Hvis. unfold timelogs_page. cbn [tl_entries].
    destruct (is_client viewer) eqn:R; apply sort_by_In.
    + apply filter_In. split.
      * cbn [time_entries add_time_entry]. apply in_or_app. right. now left.
      * apply in__In. cbn [e_project_id].
        apply is_client_true in R.
        exact (proj2 (client_ids_visible db viewer project_id) (Hvis R)).
    + cbn [time_entries add_time_entry]. apply in_or_app. right. now left.
Qed.

(** X10. A user who is not a client can log a finite number of hours, on
    a project_id within the signed 64-bit range, on any date of the
    calendar written "YYYY-MM-DD": the request succeeds and the stored
    entry carries exactly that date. *)
Theorem add_timelog_accepts_iso_date (ucd : Unicode) (db : Store)
  (user : User) (project_id : Z) (q : Q) (description : string) (d : date) :
  u_role user <> "client" -> valid_date d = true ->
  int64 project_id = true ->
  exists id,
    add_timelog ucd db user project_id (Finite q) description (isoformat d)
    = (Returned (RedirectResponse "/timelogs" 303),
       Within (add_time_entry db
                 (mkTimeEntry id project_id d q description))).
Proof.
  intros H Hd Hi. apply is_client_false in H. unfold add_timelog.
  rewrite H, (strptime_isoformat ucd d Hd), Hi. eexists. reflexivity.
Qed.

Lemma add_timelog_accepts_iso_date_witness :
  u_role sample_admin <> "client"
  /\ valid_date (mkDate 2024 2 29) = true
  /\ exists id,
       add_timelog sample_ucd sample_store sample_admin 1 (Finite (5 # 2))
         "review" (of_string "2024-02-29")
       = (Returned (RedirectResponse "/timelogs" 303),
          Within (add_time_entry sample_store
                    (mkTimeEntry id 1 (mkDate 2024 2 29) (5 # 2) "review"))).
Proof.
  assert (H : u_role sample_admin <> "client") by discriminate.
  split; [exact H |]. split; [reflexivity |].
  exact (add_timelog_accepts_iso_date sample_ucd sample_store sample_admin 1
           (5 # 2) "review" (mkDate 2024 2 29) H eq_refl eq_refl).
Defined.

Lemma sample_post :
  add_timelog sample_ucd sample_store sample_admin 1 (Finite (5 # 2))
    "review" (of_string "2024-03-01")
  = (Returned (RedirectResponse "/timelogs" 303),
     Within (within (snd (add_timelog sample_ucd sample_store sample_admin 1
                            (Finite (5 # 2)) "review"
                            (of_string "2024-03-01"))))).
Proof. reflexivity. Qed.

Lemma add_timelog_adds_to_total_witness :
  exists db',
    add_timelog sample_ucd sample_store sample_admin 1 (Finite (5 # 2))
      "review" (of_string "2024-03-01")
    = (Returned (RedirectResponse "/timelogs" 303), Within db')
    /\ tl_projects (timelogs_page db' sample_client)
       = tl_projects (timelogs_page sample_store sample_client).
Proof.
  eexists. split; [exact sample_post |].
  destruct (add_timelog_adds_to_total _ _ _ _ _ _ _ _ _ sample_post)
    as (q & _ & H).
  apply (H sample_client).
Defined.

Lemma add_timelog_entry_listed_witness :
  exists db' e,
    add_timelog sample_ucd sample_store sample_admin 1 (Finite (5 # 2))
      "review" (of_string "2024-03-01")
    = (Returned (RedirectResponse "/timelogs" 303), Within db')
    /\ time_entries db' = time_entries sample_store ++ [e]
    /\ e_project_id e = 1.
Proof.
  destruct (add_timelog_entry_listed _ _ _ _ _ _ _ _ _ sample_post)
    as (e & Ht & _ & Hp & _).
  eexists. exists e. split; [exact sample_post |].
  split; [exact Ht | exact Hp].
Defined.

(** ** Sessions *)

(** X11. With a signer whose tokens are not empty and load back to the
    username they were made from: a successful POST /login sets a cookie
    with which [get_current_user] finds the very user whose password was
    verified, the first of the store with that username, so that
    [login_required] lets the request through; a failed login sets no
    cookie. *)
Theorem login_then_authenticated (cr : Crypto) (db : Store)
  (username password : string) :
  (forall name, dumps cr name <> EmptyString
                /\ loads cr (dumps cr name) = Some name) ->
  match login cr db username password with
  | (RedirectResponse url code, Some token) =>
      url = "/dashboard" /\ code = 303
      /\ exists user,
           get_current_user cr (Some token) db = Some user
           /\ login_required (get_current_user cr (Some token) db)
              = Authenticated user
           /\ In user (users db) /\ u_username user = username
           /\ verify cr password (u_hashed_password user) = true
  | (RedirectResponse url code, None) =>
      url = "/login?error=Invalid credentials" /\ code = 303
      /\ (user_by_name db username = None
          \/ exists user, user_by_name db username = Some user
                          /\ verify cr password (u_hashed_password user)
                             = false)
  end.
Proof.
  intro Hsign. unfold login.
  destruct (user_by_name db username) as [user|] eqn:Eu.
  - destruct (verify cr password (u_hashed_password user)) eqn:Ev.
    + split; [reflexivity |]. split; [reflexivity |]. exists user.
      destruct (Hsign username) as [Hne Hload].
      assert (G : get_current_user cr (Some (dumps cr username)) db = Some user).
      { unfold get_current_user.
        destruct (dumps cr username) as [|c t] eqn:Ed; [contradiction |].
        now rewrite Hload. }
      rewrite G. split; [reflexivity |]. split; [reflexivity |].
      unfold user_by_name in Eu. apply find_some in Eu as [Hin Hname].
      apply String.eqb_eq in Hname. now repeat split.
    + split; [reflexivity |]. split; [reflexivity |]. right. now exists user.
  - split; [reflexivity |]. split; [reflexivity |]. now left.
Qed.

Lemma login_then_authenticated_witness :
  login sample_crypto sample_store "admin" "admin"
  = (RedirectResponse "/dashboard" 303, Some "sadmin")
  /\ exists user,
       get_current_user sample_crypto (Some "sadmin") sample_store = Some user
       /\ u_username user = "admin".
Proof.
  assert (H : forall name,
            dumps sample_crypto name <> EmptyString
            /\ loads sample_crypto (dumps sample_crypto name) = Some name)
    by (intro name; split; [discriminate | reflexivity]).
  assert (E : login sample_crypto sample_store "admin" "admin"
              = (RedirectResponse "/dashboard" 303, Some "sadmin"))
    by reflexivity.
  pose proof (login_then_authenticated sample_crypto sample_store "admin"
                "admin" H) as L.
  rewrite E in L. destruct L as (_ & _ & user & G & _ & _ & Hn & _).
  split; [reflexivity |]. exists user. split; [exact G | exact Hn].
Defined.

(** X12. A request without a usable session is anonymous and is sent to the
    login page: no cookie, an empty cookie, a token that does not load,
    or a token for a username the store does not hold. *)
Theorem anonymous_is_redirected (cr : Crypto) (db : Store)
  (cookie : option string) :
  (cookie = None \/ cookie = Some EmptyString
   \/ (exists token, cookie = Some token
         /\ (loads cr token = None
             \/ exists name, loads cr token = Some name
                  /\ forall u, In u (users db) -> u_username u <> name))) ->
  get_current_user cr cookie db = None
  /\ login_required (get_current_user cr cookie db)
     = RedirectException 307 "/login"
  /\ root (get_current_user cr cookie db) = RedirectResponse "/login" 307.
Proof.
  intro H.
  assert (G : get_current_user cr cookie db = None).
  { destruct H as [->|[->|(token & -> & H)]]; [reflexivity | reflexivity |].
    unfold get_current_user. destruct token as [|c t]; [reflexivity |].
    destruct H as [->|(name & -> & Hno)]; [reflexivity |].
    unfold user_by_name.
    destruct (find _ (users db)) as [u|] eqn:E; [| reflexivity].
    apply find_some in E as [Hin Hname]. apply String.eqb_eq in Hname.
    exfalso. exact (Hno u Hin Hname). }
  rewrite G. now repeat split.
Qed.

Lemma anonymous_is_redirected_witness :
  login_required (get_current_user sample_crypto (Some "forged") sample_store)
  = RedirectException 307 "/login".
Proof.
  apply (anonymous_is_redirected sample_crypto sample_store (Some "forged")).
  right. right. exists "forged". split; [reflexivity |]. left. reflexivity.
Defined.

(** ** The first run, row by row *)

Lemma for_range_map {A B : Type} (f : A -> B) (g : Z -> B) (n : nat)
  (start : Z) (body : Z -> rand A) (k : nat) :
  (forall i j, f (fst (body i j)) = g i) ->
  map f (fst (for_range n start body k)) = map g (zseq start n).
Proof.
  intro H. revert start k. induction n as [|n IH]; intros start k; simpl.
  - reflexivity.
  - unfold bind. pose proof (H start k) as Ha.
    destruct (body start k) as [a k1].
    specialize (IH (start + 1) k1).
    destruct (for_range n (start + 1) body k1) as [rest k2].
    simpl in *. now rewrite Ha, IH.
Qed.

Lemma choice_In {A : Type} (w : World) (x : A) (xs : list A) (k : nat) :
  In (fst (choice w x xs k)) (x :: xs).
Proof.
  unfold choice. cbn [fst].
  destruct (nth_in_or_default
              (Z.to_nat (draw w k mod Z.of_nat (List.length (x :: xs))))
              (x :: xs) x) as [H|H].
  - exact H.
  - rewrite H. now left.
Qed.

(** The tables after a first run, as the three loops leave them. *)
Lemma init_db_loops (w : World) (db : Store) :
  users db = [] ->
  let c1 := mkClient (next_id (map c_id (clients db))) "TechCorp Inc."
                     "contact@techcorp.com" in
  let c2 := mkClient (next_id (map c_id (clients db)) + 1) "DesignStudio Pro"
                     "hello@designstudio.com" in
  let c3 := mkClient (next_id (map c_id (clients db)) + 2) "Startup Ventures"
                     "founders@startup.io" in
  exists p ps (k1 k2 : nat),
    let body_p := seed_project w c1 c2 c3 (next_id (map p_id (projects db))) in
    let body_e := seed_entry w p ps (next_id (map e_id (time_entries db))) in
    let body_i := seed_invoice w p ps (next_id (map i_id (invoices db))) in
    p :: ps = fst (for_range 5 0 body_p O)
    /\ init_db w db
       = {| users :=
              [ mkUser 1 "admin" (pwd_hash w "admin") "admin" None;
                mkUser 2 "freelancer" (pwd_hash w "freelancer") "freelancer"
                       None;
                mkUser 3 "client" (pwd_hash w "client") "client"
                       (Some (c_id c1)) ];
            clients := clients db ++ [c1; c2; c3];
            projects := projects db ++ p :: ps;
            time_entries := time_entries db ++ fst (for_range 20 0 body_e k1);
            invoices := invoices db ++ fst (for_range 4 0 body_i k2) |}.
Proof.
  intro Hu. cbn zeta. unfold init_db. rewrite Hu. cbn [app map].
  set (c1 := mkClient _ "TechCorp Inc." _).
  set (c2 := mkClient _ "DesignStudio Pro" _).
  set (c3 := mkClient _ "Startup Ventures" _).
  unfold bind.
  pose proof (for_range_length 5 0
    (seed_project w c1 c2 c3 (next_id (map p_id (projects db)))) O) as Lp.
  destruct (for_range 5 0 _ O) as [[|p ps] k1]; [discriminate Lp |].
  exists p, ps, k1.
  destruct (for_range 20 0 _ k1) as [es k2].
  exists k2.
  destruct (for_range 4 0 _ k2) as [ivs k3].
  cbn [fst]. split; reflexivity.
Qed.

Lemma zseq_lower (start : Z) (n : nat) (x : Z) :
  In x (zseq start n) -> start <= x.
Proof.
  revert start. induction n as [|n IH]; simpl; intros start H.
  - contradiction.
  - destruct H as [<-|H]; [lia |]. apply IH in H. lia.
Qed.

Lemma zseq_NoDup (start : Z) (n : nat) : NoDup (zseq start n).
Proof.
  revert start. induction n as [|n IH]; simpl; intro start.
  - constructor.
  - constructor; [| apply IH]. intro H. apply zseq_lower in H. lia.
Qed.

(** The primary keys a first run on the empty store assigns. *)
Lemma init_db_ids (w : World) :
  map u_id (users (init_db w empty_store)) = [1; 2; 3]
  /\ map c_id (clients (init_db w empty_store)) = [1; 2; 3]
  /\ map p_id (projects (init_db w empty_store)) = zseq 1 5
  /\ map e_id (time_entries (init_db w empty_store)) = zseq 1 20
  /\ map i_id (invoices (init_db w empty_store)) = zseq 1 4.
Proof.
  destruct (init_db_loops w empty_store eq_refl)
    as (p & ps & k1 & k2 & Hp & E).
  cbn zeta in *. rewrite E.
  cbn [users clients projects time_entries invoices empty_store app].
  split; [reflexivity |]. split; [reflexivity |]. split; [| split].
  - rewrite Hp. rewrite for_range_map with (g := fun i => 1 + i).
    + reflexivity.
    + reflexivity.
  - rewrite for_range_map with (g := fun i => 1 + i).
    + reflexivity.
    + reflexivity.
  - rewrite for_range_map with (g := fun i => 1 + i).
    + reflexivity.
    + reflexivity.
Qed.

Lemma init_db_project_ids (w : World) :
  map p_id (projects (init_db w empty_store)) = [1; 2; 3; 4; 5].
Proof. exact (proj1 (proj2 (proj2 (init_db_ids w)))). Qed.

(** X13. After a first run on the empty store, for any clock, random draws and
    password hash: the rows of each table are numbered from 1; the client
    user belongs to the first client; every project belongs to one of
    the three clients; every time entry and every invoice is on one of
    the five projects. *)
Theorem init_db_wires_references (w : World) :
  map u_id (users (init_db w empty_store)) = [1; 2; 3]
  /\ map u_client_id (users (init_db w empty_store)) = [None; None; Some 1]
  /\ map c_id (clients (init_db w empty_store)) = [1; 2; 3]
  /\ map c_name (clients (init_db w empty_store))
     = ["TechCorp Inc."; "DesignStudio Pro"; "Startup Ventures"]
  /\ map p_id (projects (init_db w empty_store)) = [1; 2; 3; 4; 5]
  /\ map e_id (time_entries (init_db w empty_store)) = zseq 1 20
  /\ map i_id (invoices (init_db w empty_store)) = [1; 2; 3; 4]
  /\ Forall (fun p => In (p_client_id p) [Some 1; Some 2; Some 3])
            (projects (init_db w empty_store))
  /\ Forall (fun e => 1 <= e_project_id e <= 5)
            (time_entries (init_db w empty_store))
  /\ Forall (fun i => 1 <= i_project_id i <= 5)
            (invoices (init_db w empty_store)).
Proof.
  destruct (init_db_ids w) as (Hu & Hc & Hp & He & Hi).
  pose proof (init_db_project_ids w) as Hpid.
  split; [exact Hu |]. split; [| split; [exact Hc |]; split;
    [| split; [exact Hp |]; split; [exact He |]; split; [exact Hi |]]].
  - destruct (init_db_loops w empty_store eq_refl) as (p & ps & k1 & k2 & _ & E).
    cbn zeta in E. now rewrite E.
  - destruct (init_db_loops w empty_store eq_refl) as (p & ps & k1 & k2 & _ & E).
    cbn zeta in E. now rewrite E.
  - destruct (init_db_loops w empty_store eq_refl)
      as (p & ps & k1 & k2 & Hps & E).
    cbn zeta in *. rewrite E in Hpid |- *.
    cbn [projects time_entries invoices empty_store app] in *.
    assert (In15 : forall x, In x (map p_id (p :: ps)) -> 1 <= x <= 5).
    { intros x Hx. rewrite Hpid in Hx. simpl in Hx. lia. }
    split; [| split].
    + rewrite Hps. apply for_range_Forall. intros i j.
      unfold seed_project, bind, randint, ret.
      pose proof (choice_In w
        (mkClient 1 "TechCorp Inc." "contact@techcorp.com")
        [mkClient 2 "DesignStudio Pro" "hello@designstudio.com";
         mkClient 3 "Startup Ventures" "founders@startup.io"] j) as Hc1.
      cbn [map next_id fold_right empty_store clients Z.add Z.max] in *.
      destruct (choice w _ _ j) as [c j1]. cbn [fst] in *.
      destruct (choice w "active" _ j1) as [st j2]. cbn [fst p_client_id].
      destruct Hc1 as [<-|[<-|[<-|[]]]]; cbn [c_id]; simpl; tauto.
    + apply for_range_Forall. intros i j. apply In15.
      unfold seed_entry, bind, randint, uniform_tenths, ret.
      pose proof (choice_In w p ps j) as Hc1.
      destruct (choice w p ps j) as [q j1]. cbn [fst e_project_id] in *.
      now apply in_map.
    + apply for_range_Forall. intros i j. apply In15.
      unfold seed_invoice, bind, randint, ret.
      pose proof (choice_In w p ps j) as Hc1.
      destruct (choice w p ps j) as [q j1]. cbn [fst] in *.
      destruct (choice w "draft" _ _) as [st j2]. cbn [fst i_project_id].
      now apply in_map.
Qed.

(** X14. After a first run on the empty store the seeded values lie in the
    ranges the generator was asked for: a project has one of the three
    statuses and a whole budget from 1000 to 10000; a time entry has from
    1.0 to 8.0 hours and the stock description; an invoice has one of the
    three statuses and a whole amount from 500 to 3000. *)
Theorem init_db_value_ranges (w : World) :
  Forall (fun p => In (p_status p) ["active"; "completed"; "on-hold"]
                   /\ (1000 <= p_budget p <= 10000)%Q)
         (projects (init_db w empty_store))
  /\ Forall (fun e => (1 <= e_hours e <= 8)%Q
                      /\ e_description e = "Development and testing")
            (time_entries (init_db w empty_store))
  /\ Forall (fun i => In (i_status i) ["draft"; "sent"; "paid"]
                      /\ (500 <= i_amount i <= 3000)%Q)
            (invoices (init_db w empty_store)).
Proof.
  destruct (init_db_loops w empty_store eq_refl) as (p & ps & k1 & k2 & Hps & E).
  cbn zeta in *. rewrite E.
  cbn [projects time_entries invoices empty_store app].
  split; [| split].
  - rewrite Hps. apply for_range_Forall. intros i j.
    unfold seed_project, bind, randint, ret.
    destruct (choice w _ _ j) as [c j1].
    pose proof (choice_In w "active" ["completed"; "on-hold"] j1) as Hs.
    destruct (choice w "active" _ j1) as [st j2].
    cbn [fst p_status p_budget] in *. split; [exact Hs |].
    pose proof (Z.mod_pos_bound (draw w (S j2)) (10000 - 1000 + 1) ltac:(lia)).
    unfold Qle, inject_Z. cbn [Qnum Qden]. lia.
  - apply for_range_Forall. intros i j.
    unfold seed_entry, bind, randint, uniform_tenths, ret.
    destruct (choice w p ps j) as [q j1].
    cbn [fst e_hours e_description]. split; [| reflexivity].
    pose proof (Z.mod_pos_bound (draw w (S j1)) 71 ltac:(lia)).
    unfold Qle. cbn [Qnum Qden]. lia.
  - apply for_range_Forall. intros i j.
    unfold seed_invoice, bind, randint, ret.
    destruct (choice w p ps j) as [q j1].
    pose proof (choice_In w "draft" ["sent"; "paid"] (S (S j1))) as Hs.
    destruct (choice w "draft" _ (S (S j1))) as [st j2].
    cbn [fst i_status i_amount] in *. split; [exact Hs |].
    pose proof (Z.mod_pos_bound (draw w j1) (3000 - 500 + 1) ltac:(lia)).
    unfold Qle, inject_Z. cbn [Qnum Qden]. lia.
Qed.

(** ** What every reachable store keeps *)

Lemma NoDup_snoc_fresh (ids : list Z) (id : Z) :
  NoDup ids -> Forall (fun i => i < id) ids -> NoDup (ids ++ [id]).
Proof.
  intros ND F. apply NoDup_app.
  - exact ND.
  - constructor; [intros [] | constructor].
  - intros x Hx [<-|[]]. rewrite Forall_forall in F. specialize (F _ Hx). lia.
Qed.

Lemma unique_ids_reachable (db : Store) : reachable db -> unique_ids db.
Proof.
  induction 1 as [w | ucd db db' user pid hours desc ds r _ IH _ E].
  - destruct (init_db_ids w) as (Hu & Hc & Hp & He & Hi).
    unfold unique_ids. rewrite Hu, Hc, Hp, He, Hi.
    repeat split; try apply zseq_NoDup; apply (zseq_NoDup 1 3).
  - apply add_timelog_returned in E as (id & d & q & _ & _ & _ & F & ->).
    destruct IH as (Hu & Hc & Hp & He & Hi).
    unfold unique_ids. cbn [add_time_entry users clients projects time_entries
                            invoices].
    repeat split; try assumption.
    rewrite map_app. cbn [map e_id]. apply NoDup_snoc_fresh; [exact He |].
    now apply Forall_map.
Qed.

(** X15. In every store the application reaches, the primary keys of each of
    the five tables are pairwise distinct. *)
Theorem reachable_unique_ids (db : Store) : reachable db -> unique_ids db.
Proof. apply unique_ids_reachable. Qed.

Lemma negative_hours_store_reachable : reachable negative_hours_store.
Proof.
  apply (reach_add sample_ucd sample_store _ sample_admin 1
           (Finite (Qmake (-1000) 1)) "correction" (of_string "2024-03-15")
           (RedirectResponse "/timelogs" 303)).
  - apply reach_seed.
  - vm_compute. left. reflexivity.
  - reflexivity.
Qed.

Lemma reachable_unique_ids_witness : unique_ids negative_hours_store.
Proof.
  apply reachable_unique_ids. exact negative_hours_store_reachable.
Defined.

(** X16. Nothing but time entries is ever added after the first run, and
    nothing is removed or changed: a reachable store has the users,
    clients, projects and invoices of a first run, and that run's time
    entries followed by the posted ones. *)
Theorem reachable_only_appends_entries (db : Store) :
  reachable db ->
  exists w posted,
    users db = users (init_db w empty_store)
    /\ clients db = clients (init_db w empty_store)
    /\ projects db = projects (init_db w empty_store)
    /\ invoices db = invoices (init_db w empty_store)
    /\ time_entries db = time_entries (init_db w empty_store) ++ posted.
Proof.
  induction 1 as [w | ucd db db' user pid hours desc ds r _ IH _ E].
  - exists w, []. rewrite app_nil_r. now repeat split.
  - destruct IH as (w & posted & Hu & Hc & Hp & Hi & He).
    apply add_timelog_returned in E as (id & d & q & _ & _ & _ & _ & ->).
    exists w, (posted ++ [mkTimeEntry id pid d q desc]).
    cbn [add_time_entry users clients projects time_entries invoices].
    rewrite He, app_assoc. now repeat split.
Qed.

Lemma reachable_only_appends_entries_witness :
  exists w posted,
    users negative_hours_store = users (init_db w empty_store)
    /\ time_entries negative_hours_store
       = time_entries (init_db w empty_store) ++ posted.
Proof.
  pose proof negative_hours_store_reachable as R.
  destruct (reachable_only_appends_entries _ R)
    as (w & posted & Hu & _ & _ & _ & He).
  exists w, posted. split; [exact Hu | exact He].
Defined.

(** X17. GET /reports answers, for every user, on every store reached from
    a first run by posts of finite hours: no paid invoice is left without
    its project and client. *)
Theorem reports_page_returns (db : Store) (user : User) :
  reachable db -> exists r, reports_page db user = Returned r.
Proof.
  intro R. apply reachable_resolve in R. unfold reports_page.
  destruct (negb (is_client user)).
  - destruct (revenue_loop_returns db
                (filter (fun i => String.eqb (i_status i) "paid") (invoices db)))
      with (monthly := @nil (string * Q)) (client := @nil (string * Q))
      as (monthly & client & E).
    { intros inv Hin. apply filter_In in Hin as [Hin Hp].
      apply String.eqb_eq in Hp. now apply R. }
    rewrite E. eexists. reflexivity.
  - eexists. reflexivity.
Qed.

Lemma reports_page_returns_witness :
  exists r, reports_page negative_hours_store sample_admin = Returned r.
Proof.
  apply reports_page_returns. exact negative_hours_store_reachable.
Defined.

(** ** Two clients *)

Lemma same_id_same_project (db : Store) (p q : Project) :
  NoDup (map p_id (projects db)) ->
  In p (projects db) -> In q (projects db) -> p_id p = p_id q -> p = q.
Proof.
  induction (projects db) as [|x t IH]; simpl; intros ND Hp Hq E.
  - contradiction.
  - inversion ND as [|? ? Hx Ht]; subst.
    destruct Hp as [<-|Hp], Hq as [<-|Hq].
    + reflexivity.
    + exfalso. apply Hx. rewrite E. now apply in_map.
    + exfalso. apply Hx. rewrite <- E. now apply in_map.
    + now apply IH.
Qed.

(** X18. When project ids are unique, two client users of different clients
    share nothing: no project, time entry or invoice is on the pages of
    both. *)
Theorem clients_share_no_rows (db : Store) (a b : User) :
  NoDup (map p_id (projects db)) ->
  u_role a = "client" -> u_role b = "client" ->
  u_client_id a <> u_client_id b ->
  (forall p, In p (projects_page db a) -> ~ In p (projects_page db b))
  /\ (forall e, In e (tl_entries (timelogs_page db a)) ->
                ~ In e (tl_entries (timelogs_page db b)))
  /\ (forall i, In i (invoices_page db a) -> ~ In i (invoices_page db b)).
Proof.
  intros ND Ha Hb Hdiff. apply is_client_true in Ha, Hb.
  assert (Hvis : forall pid,
            in_visible_set db a pid -> in_visible_set db b pid -> False).
  { intros pid (p & [Hp Hpc] & Ep) (q & [Hq Hqc] & Eq).
    assert (p = q) by (apply (same_id_same_project db); congruence).
    subst q. congruence. }
  unfold projects_page, timelogs_page, invoices_page. rewrite Ha, Hb.
  cbn [tl_entries]. split; [| split].
  - intros p Hp Hp'. apply projects_of_client_visible in Hp as [_ Hp].
    apply projects_of_client_visible in Hp' as [_ Hp']. congruence.
  - intros e He He'. apply sort_by_In, filter_In in He as [_ He].
    apply sort_by_In, filter_In in He' as [_ He'].
    apply in__In, client_ids_visible in He.
    apply in__In, client_ids_visible in He'. eauto.
  - intros i Hi Hi'. apply filter_In in Hi as [_ Hi].
    apply filter_In in Hi' as [_ Hi'].
    apply in__In, client_ids_visible in Hi.
    apply in__In, client_ids_visible in Hi'. eauto.
Qed.

Lemma clients_share_no_rows_witness :
  In (mkInvoice 1 1 (inject_Z 581) (mkDate 2024 2 25) "paid")
     (invoices_page sample_store sample_client)
  /\ ~ In (mkInvoice 1 1 (inject_Z 581) (mkDate 2024 2 25) "paid")
          (invoices_page sample_store
             (mkUser 4 "client2" "h" "client" (Some 2))).
Proof.
  assert (ND : NoDup (map p_id (projects sample_store))).
  { destruct (unique_ids_reachable sample_store (reach_seed sample_world))
      as (_ & _ & H & _). exact H. }
  assert (Hin : In (mkInvoice 1 1 (inject_Z 581) (mkDate 2024 2 25) "paid")
                   (invoices_page sample_store sample_client))
    by (vm_compute; left; reflexivity).
  split; [exact Hin |].
  apply (clients_share_no_rows sample_store sample_client
           (mkUser 4 "client2" "h" "client" (Some 2)) ND eq_refl eq_refl);
    [discriminate | exact Hin].
Defined.

(** ** The pages against each other *)

(** X19. The report lists the projects of the time-log page, in the same
    order, each under its name and with the total that the time-log page
    shows for it. *)
Theorem reports_hours_match_timelogs (db : Store) (user : User)
  (r : ReportsCtx) :
  reports_page db user = Returned r ->
  Forall2 (fun p row =>
             fst row = p_name p
             /\ zdict_lookup (tl_project_totals (timelogs_page db user))
                             (p_id p) = Some (snd row))
          (tl_projects (timelogs_page db user)) (project_data r).
Proof.
  intro E.
  set (ps := tl_projects (timelogs_page db user)).
  assert (L : forall p, In p ps ->
            zdict_lookup (tl_project_totals (timelogs_page db user)) (p_id p)
            = Some (hours_on db (p_id p)))
    by (intros p; apply timelogs_totals_lookup).
  assert (D : project_data r
              = map (fun p => (p_name p, hours_on db (p_id p))) ps).
  { unfold reports_page in E.
    destruct (if negb (is_client user) then _ else _)
      as [[monthly client]|e]; [| discriminate].
    injection E as <-. reflexivity. }
  rewrite D. clear D E. clearbody ps.
  induction ps as [|p t IH]; cbn [map]; constructor.
  - cbn [fst snd]. split; [reflexivity |]. apply L. now left.
  - apply IH. intros q Hq. apply L. now right.
Qed.

Lemma reports_hours_match_timelogs_witness :
  exists r, reports_page sample_store sample_client = Returned r
            /\ List.length (project_data r)
               = List.length (tl_projects (timelogs_page sample_store
                                             sample_client)).
Proof.
  destruct (reports_page sample_store sample_client) as [r|e] eqn:E;
    [| vm_compute in E; discriminate E].
  exists r. split; [reflexivity |]. symmetry.
  eapply Forall2_length.
  apply (reports_hours_match_timelogs sample_store sample_client r E).
Defined.

(** X20. A successful POST /timelogs with finite hours changes one card of
    the dashboard at most: the hours shown to a user who is not a client
    are the sum of the hours counted before followed by the posted hours
    when the entry is dated on or after the first day of the current
    month, and stay as they were otherwise; the counts of active projects
    and pending invoices and the earnings stay as they were for every
    user. *)
Theorem add_timelog_moves_dashboard (ucd : Unicode) (db db' : Store)
  (user : User) (project_id : Z) (hours : form_float)
  (description : string) (date_str : str) (resp : Redirect) (today : date)
  (viewer : User) :
  add_timelog ucd db user project_id hours description date_str
  = (Returned resp, Within db') ->
  exists d q,
    strptime_Ymd ucd date_str = Some d /\ hours = Finite q
    /\ active_projects (dashboard today db' viewer)
       = active_projects (dashboard today db viewer)
    /\ pending_invoices (dashboard today db' viewer)
       = pending_invoices (dashboard today db viewer)
    /\ total_earned (dashboard today db' viewer)
       = total_earned (dashboard today db viewer)
    /\ (u_role viewer <> "client" ->
        total_hours (dashboard today db' viewer)
        = if date_leb (mkDate (year today) (month today) 1) d
          then py_sum
                 (map e_hours
                    (filter (fun e => date_leb
                                        (mkDate (year today) (month today) 1)
                                        (e_date e))
                            (time_entries db))
                  ++ [q])
          else total_hours (dashboard today db viewer)).
Proof.
  intro E.
  apply add_timelog_returned in E as (id & d & q & Hd & -> & _ & _ & ->).
  exists d, q. split; [exact Hd |]. split; [reflexivity |].
  unfold dashboard, projects_of_client.
  destruct (is_client viewer) eqn:R;
    cbn [active_projects pending_invoices total_earned total_hours
         add_time_entry projects invoices time_entries].
  - repeat split. intro H. apply is_client_true in R. contradiction.
  - repeat split. intros _.
    rewrite filter_app, map_app. cbn [filter e_date].
    destruct (date_leb (mkDate (year today) (month today) 1) d).
    + reflexivity.
    + cbn [map]. now rewrite app_nil_r.
Qed.

Lemma add_timelog_moves_dashboard_witness :
  exists db' d,
    add_timelog sample_ucd sample_store sample_admin 1 (Finite (5 # 2))
      "review" (of_string "2024-03-01")
    = (Returned (RedirectResponse "/timelogs" 303), Within db')
    /\ strptime_Ymd sample_ucd (of_string "2024-03-01") = Some d
    /\ total_earned (dashboard (mkDate 2024 3 15) db' sample_admin)
       = total_earned (dashboard (mkDate 2024 3 15) sample_store sample_admin).
Proof.
  destruct (add_timelog_moves_dashboard _ _ _ _ _ _ _ _ _ (mkDate 2024 3 15)
              sample_admin sample_post) as (d & q & Hd & _ & _ & _ & He & _).
  eexists. exists d. split; [exact sample_post |].
  split; [exact Hd | exact He].
Defined.

(** X21. A client none of whose projects exist sees empty pages: no project,
    entry, total or invoice, a dashboard of zeros, and a report without
    rows whose three denominators are 1. *)
Theorem client_without_projects (today : date) (db : Store) (user : User) :
  u_role user = "client" ->
  (forall p, In p (projects db) -> p_client_id p <> u_client_id user) ->
  projects_page db user = []
  /\ timelogs_page db user = mkTimelogsCtx [] [] []
  /\ invoices_page db user = []
  /\ dashboard today db user = mkDashboardCtx 0 0%Q 0 0%Q
  /\ reports_page db user = Returned (mkReportsCtx [] [] [] 1%Q 1%Q 1%Q).
Proof.
  intros Hrole Hnone. apply is_client_true in Hrole.
  assert (P : projects_of_client db user = []).
  { apply filter_none. intros p Hp.
    destruct (opt_eqb (p_client_id p) (u_client_id user)) eqn:E;
      [| reflexivity].
    apply opt_eqb_eq in E. exfalso. exact (Hnone p Hp E). }
  unfold projects_page, timelogs_page, invoices_page, dashboard, reports_page.
  rewrite Hrole, P. cbn [map flat_map negb fold_left].
  rewrite !(filter_none (fun e : TimeEntry => in_ [] (e_project_id e)))
    by reflexivity.
  rewrite !(filter_none (fun i : Invoice => in_ [] (i_project_id i)))
    by reflexivity.
  repeat split.
Qed.

Lemma client_without_projects_witness :
  reports_page sample_store (mkUser 4 "client9" "h" "client" (Some 9))
  = Returned (mkReportsCtx [] [] [] 1%Q 1%Q 1%Q).
Proof.
  apply (client_without_projects (mkDate 2024 3 15) sample_store
           (mkUser 4 "client9" "h" "client" (Some 9)) eq_refl).
  intros p Hp. vm_compute in Hp.
  repeat (destruct Hp as [<-|Hp]; [discriminate |]). contradiction.
Defined.
